(** * GEKKO backend: pricing engine, order executor and strategy engine

    A shallow embedding of [greeks.py], [orders.py], [state.py] and
    [strategies.py].

    Floating point numbers of the pricing engine are read as real numbers
    ([R]); prices, premiums and profit-and-loss figures of the execution
    layer are read as rationals ([Q]); Python integers are [Z]. *)

From Stdlib Require Import Reals Psatz ZArith QArith Qround Qabs Bool List String Ascii.
From Stdlib Require Import DecimalString.
Import ListNotations.

(** ** greeks.py *)

Module BSGreeks.
Local Open Scope R_scope.

(** [scipy.stats.norm.pdf]: the density of the standard normal law. *)
Definition norm_pdf (x : R) : R := exp (- (x * x) / 2) / sqrt (2 * PI).

Lemma norm_pdf_continuity : continuity norm_pdf.
Proof.
  unfold norm_pdf. reg.
Qed.

Lemma norm_pdf_integrable (a b : R) : Riemann_integrable norm_pdf a b.
Proof.
  destruct (Rle_dec a b) as [Hab | Hab].
  - apply continuity_implies_RiemannInt; [exact Hab |].
    intros x _. apply norm_pdf_continuity.
  - apply RiemannInt_P1.
    apply continuity_implies_RiemannInt; [lra |].
    intros x _. apply norm_pdf_continuity.
Qed.

(** [scipy.stats.norm.cdf]: the distribution function of the standard normal
    law, written as one half plus the integral of the density from 0 to [x]
    (for negative [x] the integral is oriented, hence negative). *)
Definition norm_cdf (x : R) : R := 1 / 2 + RiemannInt (norm_pdf_integrable 0 x).

Definition d1 (S K T r sigma : R) : R :=
  (ln (S / K) + (r + 0.5 * sigma ^ 2) * T) / (sigma * sqrt T).

Definition d2 (S K T r sigma : R) : R :=
  d1 S K T r sigma - sigma * sqrt T.

Definition price (S K T r sigma : R) (opt_type : string) : R :=
  let d1 := d1 S K T r sigma in
  let d2 := d2 S K T r sigma in
  if String.eqb opt_type "CE"
  then S * norm_cdf d1 - K * exp (- r * T) * norm_cdf d2
  else K * exp (- r * T) * norm_cdf (- d2) - S * norm_cdf (- d1).

Definition delta (S K T r sigma : R) (opt_type : string) : R :=
  let d1 := d1 S K T r sigma in
  if String.eqb opt_type "CE" then norm_cdf d1 else norm_cdf d1 - 1.

Definition gamma (S K T r sigma : R) : R :=
  let d1 := d1 S K T r sigma in
  norm_pdf d1 / (S * sigma * sqrt T).

Definition theta (S K T r sigma : R) (opt_type : string) : R :=
  let d1 := d1 S K T r sigma in
  let d2 := d2 S K T r sigma in
  let t1 := - (S * norm_pdf d1 * sigma) / (2 * sqrt T) in
  if String.eqb opt_type "CE"
  then (t1 - r * K * exp (- r * T) * norm_cdf d2) / 365
  else (t1 + r * K * exp (- r * T) * norm_cdf (- d2)) / 365.

Definition vega (S K T r sigma : R) : R :=
  let d1 := d1 S K T r sigma in
  S * norm_pdf d1 * sqrt T / 100.

(** Why the Newton loop of [implied_volatility] was left. *)
Inductive iv_exit : Set :=
  | DegenerateVega   (* [abs(vega) < 1e-10]: break *)
  | Converged        (* [abs(price - market_price) < tol]: break *)
  | Exhausted.       (* [range(max_iter)] ran out *)

(** The body of [for _ in range(max_iter)], with the value of [sigma] that the
    loop leaves behind and the way it was left.  Over the reals no operation
    raises, so the [except Exception: break] arm is never taken. *)
Fixpoint iv_newton (market_price S K T r : R) (opt_type : string) (tol : R)
    (iters : nat) (sigma : R) : R * iv_exit :=
  match iters with
  | O => (sigma, Exhausted)
  | Datatypes.S iters' =>
      let p := price S K T r sigma opt_type in
      let vega := vega S K T r sigma * 100 in
      if Rlt_dec (Rabs vega) 1e-10 then (sigma, DegenerateVega)
      else
        let sigma := sigma - (p - market_price) / vega in
        let sigma := Rmax 0.001 (Rmin sigma 5.0) in
        if Rlt_dec (Rabs (price S K T r sigma opt_type - market_price)) tol
        then (sigma, Converged)
        else iv_newton market_price S K T r opt_type tol iters' sigma
  end.

Definition implied_volatility_with (market_price S K T r : R)
    (opt_type : string) (tol : R) (max_iter : nat) : R :=
  if Rle_dec market_price 0 then 0.0
  else fst (iv_newton market_price S K T r opt_type tol max_iter 0.20).

(** [implied_volatility] with its default [tol=1e-5, max_iter=200]. *)
Definition implied_volatility (market_price S K T r : R) (opt_type : string) : R :=
  implied_volatility_with market_price S K T r opt_type 1e-5 200.

(** Python's [round(y)]: nearest integer, ties to the even one. *)
Definition round_half_even (y : R) : Z :=
  let f := Int_part y in
  let d := y - IZR f in
  if Rlt_dec d (1 / 2) then f
  else if Rlt_dec (1 / 2) d then (f + 1)%Z
  else if Z.even f then f else (f + 1)%Z.

(** Python's [round(x, ndigits)]. *)
Definition py_round (x : R) (ndigits : nat) : R :=
  IZR (round_half_even (x * 10 ^ ndigits)) / 10 ^ ndigits.

Record Greeks : Type := mkGreeks {
  iv : R;
  g_delta : R;
  g_gamma : R;
  g_theta : R;
  g_vega : R;
  fair_price : R
}.

Definition full_greeks (S K T r market_price : R) (opt_type : string) : Greeks :=
  let iv := implied_volatility market_price S K T r opt_type in
  if Rle_dec iv 0 then mkGreeks 0 0 0 0 0 0
  else mkGreeks
         (py_round (iv * 100) 2)
         (py_round (delta S K T r iv opt_type) 4)
         (py_round (gamma S K T r iv) 5)
         (py_round (theta S K T r iv opt_type) 2)
         (py_round (vega S K T r iv) 4)
         (py_round (price S K T r iv opt_type) 2).

End BSGreeks.

(** ** Numbers and strings of the execution layer *)

Local Open Scope string_scope.
Local Open Scope list_scope.

Definition string_of_Z (z : Z) : string := NilZero.string_of_int (Z.to_int z).

(** Python's [range(lo, hi)]. *)
Definition range (lo hi : Z) : list Z :=
  map (fun k => (lo + Z.of_nat k)%Z) (seq 0 (Z.to_nat (hi - lo))).

(** Python's [round(x)] on a rational: nearest integer, ties to even. *)
Definition py_round_int (x : Q) : Z :=
  let f := Qfloor x in
  let d := (x - inject_Z f)%Q in
  if Qeq_bool d (1 # 2) then (if Z.even f then f else f + 1)%Z
  else if Qle_bool d (1 # 2) then f else (f + 1)%Z.

(** Python's [round(x, ndigits)] on a rational. *)
Definition py_round_q (x : Q) (ndigits : nat) : Q :=
  (inject_Z (py_round_int (x * inject_Z (10 ^ Z.of_nat ndigits)))
   / inject_Z (10 ^ Z.of_nat ndigits))%Q.

Definition Qlt_bool (a b : Q) : bool := negb (Qle_bool b a).

Definition Qabs_val (a : Q) : Q := if Qle_bool 0 a then a else (- a)%Q.

Definition option_Z_eqb (a b : option Z) : bool :=
  match a, b with
  | Some x, Some y => Z.eqb x y
  | None, None => true
  | _, _ => false
  end.

(** ** The brokerage (KiteConnect) interface *)

Inductive Txn : Set := TRANSACTION_TYPE_BUY | TRANSACTION_TYPE_SELL.
Inductive OrderType : Set := ORDER_TYPE_LIMIT | ORDER_TYPE_MARKET.

(** The keyword arguments of [kite.place_order]; [variety], [exchange] and
    [product] are the same constants at every call site and are left out. *)
Record OrderRequest : Type := mkOrderRequest {
  tradingsymbol : string;
  transaction_type : Txn;
  quantity : Z;
  order_type : OrderType;
  price : option Q;
  tag : string
}.

(** One row of [kite.orders()].  [average_price] is [None] when
    [float(o["average_price"])] would raise. *)
Record OrderRow : Type := mkOrderRow {
  row_order_id : string;
  row_status : string;
  row_average_price : option Q
}.

(** The entry of [kite.quote([key])[key]]; a field is [None] when its key is
    missing. *)
Record QuoteRow : Type := mkQuoteRow {
  last_price : option Q;
  quote_oi : option Z
}.

Record Instrument : Type := mkInstrument {
  inst_tradingsymbol : string;
  instrument_token : Z
}.

(** The broker as a state machine over its own state [B].  A result [None]
    (or [false] for [cancel_order]) stands for a call that raises. *)
Record Kite (B : Type) : Type := mkKite {
  kite_place_order : OrderRequest -> B -> option string * B;
  kite_cancel_order : string -> B -> bool * B;
  kite_orders : B -> option (list OrderRow) * B;
  kite_quote : string -> B -> option QuoteRow * B;
  kite_instruments : string -> B -> option (list Instrument) * B
}.
Arguments mkKite {B}.
Arguments kite_place_order {B}.
Arguments kite_cancel_order {B}.
Arguments kite_orders {B}.
Arguments kite_quote {B}.
Arguments kite_instruments {B}.

(** Broker calls in the order they were made (a ghost trace). *)
Inductive Call : Type :=
  | CallPlaceOrder (req : OrderRequest)
  | CallCancelOrder (order_id : string)
  | CallOrders
  | CallQuote (key : string)
  | CallInstruments (exchange : string).

(** ** state.py *)

(** An open leg: the [pos] dict of [place_order]. *)
Module Leg.
Record t : Type := mk {
  symbol : string;
  token : option Z;
  side : string;
  qty : Z;
  entry : Q;
  ltp : Q;
  pnl : Q;
  order_id : string;
  time : Z
}.

(** Equality of two [pos] dicts, as [in] and [list.remove] see it. *)
Definition eqb (a b : t) : bool :=
  String.eqb (symbol a) (symbol b) && option_Z_eqb (token a) (token b)
  && String.eqb (side a) (side b) && Z.eqb (qty a) (qty b)
  && Qeq_bool (entry a) (entry b) && Qeq_bool (ltp a) (ltp b)
  && Qeq_bool (pnl a) (pnl b) && String.eqb (order_id a) (order_id b)
  && Z.eqb (time a) (time b).
End Leg.

(** One contract of the chain snapshot: the dict built by
    [fetch_and_update_chain]. *)
Module Opt.
Record t : Type := mk {
  symbol : string;
  token : option Z;
  strike : Z;
  type : string;
  expiry : string;
  ltp : Q;
  oi : Z;
  iv_mismatch : Q;
  overpriced : bool;
  iv : Q;
  delta : Q;
  gamma : Q;
  theta : Q;
  vega : Q;
  fair_price : Q
}.

(** [{**o, "strike": k, "symbol": s}] *)
Definition with_strike_symbol (o : t) (k : Z) (s : string) : t :=
  mk s (token o) k (type o) (expiry o) (ltp o) (oi o) (iv_mismatch o)
     (overpriced o) (iv o) (delta o) (gamma o) (theta o) (vega o) (fair_price o).
End Opt.

(** The Greeks bundle as the execution layer sees it. *)
Record GreeksQ : Type := mkGreeksQ {
  gq_iv : Q;
  gq_delta : Q;
  gq_gamma : Q;
  gq_theta : Q;
  gq_vega : Q;
  gq_fair_price : Q
}.

Record Config : Type := mkConfig {
  capital : Q;
  target_pct : Q;
  sl_pct : Q;
  lot_size : Z;
  max_legs : Z;
  max_rolls : Z;
  iv_mismatch_threshold : Q;
  pre_noon_hedge_pts : Z;
  post_noon_hedge_pts : Z;
  decay_trigger_pct : Q;
  iv_rank_entry : Q;
  condor_wing_width : Z;
  delta_short_min : Q;
  delta_short_max : Q;
  adjustment_delta : Q;
  vix_52w_low : Q;
  vix_52w_high : Q
}.

(** The configuration of [AgentState.__init__], with the default capital. *)
Definition default_config : Config :=
  mkConfig 500000 0.005 0.005 50 6 5 2.0 400 300 0.50 60 100 0.20 0.30 0.45
           10.0 35.0.

(** The text of a log line, kept as its template and arguments. *)
Inductive Msg : Type :=
  | MsgOrderLimit (side symbol : string) (price : Q)
  | MsgOrderFailed (symbol : string)
  | MsgFilled (side symbol : string) (filled_price : Q)
  | MsgOrderError
  | MsgClose (close_side symbol : string)
  | MsgAllClosed (legs : nat)
  | MsgTargetHit (pnl : Q)
  | MsgStopLoss (pnl : Q)
  | MsgIvMismatch (symbol : string) (iv vix iv_mismatch delta : Q)
  | MsgEntering (sell_symbol : string) (sell_ltp : Q) (hedge_sym : string)
      (hedge_ltp net_credit : Q)
  | MsgDecay (decay_pct : Q) (symbol : string)
  | MsgRoll (roll_count max_rolls : Z) (delta : Q)
  | MsgWaitingIvRank (iv_rank_entry iv_rank : Q)
  | MsgNoCondorStrikes
  | MsgIronCondor (sc_symbol : string) (sc_ltp : Q) (sp_symbol : string)
      (sp_ltp net_credit iv_rank : Q)
  | MsgCondorAdjust (roll_count max_rolls : Z) (opt_type : string) (delta : Q)
  | MsgActivated (name : string)
  | MsgStopped
  | MsgActivatedByUser (name : string)
  | MsgManualStop.

Record LogEntry : Type := mkLogEntry {
  sender : string;
  text : Msg;
  type_ : string;
  log_time : Z
}.

(** [AgentState], with the broker's own state in [kite], the wall clock in
    milliseconds in [now] and the trace of broker calls in [calls]. *)
Record AgentState (B : Type) : Type := mkAgentState {
  kite : B;
  calls : list Call;
  now : Z;
  spot : Q;
  vix : Q;
  iv_rank : Q;
  option_chain : list Opt.t;
  active_strategy : option string;
  positions : list Leg.t;
  session_pnl : Q;
  roll_count : Z;
  config : Config;
  _log : list LogEntry
}.
Arguments mkAgentState {B}.
Arguments kite {B}.
Arguments calls {B}.
Arguments now {B}.
Arguments spot {B}.
Arguments vix {B}.
Arguments iv_rank {B}.
Arguments option_chain {B}.
Arguments active_strategy {B}.
Arguments positions {B}.
Arguments session_pnl {B}.
Arguments roll_count {B}.
Arguments config {B}.
Arguments _log {B}.

Section State.
Context {B : Type}.
Implicit Type st : AgentState B.

Definition set_kite (b : B) (c : Call) st : AgentState B :=
  mkAgentState b (calls st ++ [c]) (now st) (spot st) (vix st) (iv_rank st)
    (option_chain st) (active_strategy st) (positions st) (session_pnl st)
    (roll_count st) (config st) (_log st).

Definition set_now (t : Z) st : AgentState B :=
  mkAgentState (kite st) (calls st) t (spot st) (vix st) (iv_rank st)
    (option_chain st) (active_strategy st) (positions st) (session_pnl st)
    (roll_count st) (config st) (_log st).

Definition set_option_chain (c : list Opt.t) st : AgentState B :=
  mkAgentState (kite st) (calls st) (now st) (spot st) (vix st) (iv_rank st)
    c (active_strategy st) (positions st) (session_pnl st)
    (roll_count st) (config st) (_log st).

Definition set_active_strategy (a : option string) st : AgentState B :=
  mkAgentState (kite st) (calls st) (now st) (spot st) (vix st) (iv_rank st)
    (option_chain st) a (positions st) (session_pnl st)
    (roll_count st) (config st) (_log st).

Definition set_positions (p : list Leg.t) st : AgentState B :=
  mkAgentState (kite st) (calls st) (now st) (spot st) (vix st) (iv_rank st)
    (option_chain st) (active_strategy st) p (session_pnl st)
    (roll_count st) (config st) (_log st).

Definition set_roll_count (n : Z) st : AgentState B :=
  mkAgentState (kite st) (calls st) (now st) (spot st) (vix st) (iv_rank st)
    (option_chain st) (active_strategy st) (positions st) (session_pnl st)
    n (config st) (_log st).

Definition set_log (l : list LogEntry) st : AgentState B :=
  mkAgentState (kite st) (calls st) (now st) (spot st) (vix st) (iv_rank st)
    (option_chain st) (active_strategy st) (positions st) (session_pnl st)
    (roll_count st) (config st) l.

(** [asyncio.sleep]: the clock moves on by [ms] milliseconds. *)
Definition sleep (ms : Z) st : AgentState B := set_now (now st + ms) st.

Definition add_log (sender : string) (text : Msg) (type_ : string) st
  : AgentState B :=
  let l := _log st ++ [mkLogEntry sender text type_ (now st)] in
  (* Keep last 200 messages *)
  set_log (if Nat.ltb 200 (List.length l)
           then skipn (List.length l - 200) l else l) st.

(** 09:30 <= now <= 15:15, on the time of day of the clock. *)
Definition is_market_hours st : bool :=
  let time_of_day := (now st mod 86400000)%Z in
  (34200000 <=? time_of_day)%Z && (time_of_day <=? 54900000)%Z.

Definition target_hit st : bool :=
  let cap := capital (config st) in
  Qle_bool (cap * target_pct (config st)) (session_pnl st).

Definition sl_hit st : bool :=
  let cap := capital (config st) in
  Qle_bool (session_pnl st) (- (cap * sl_pct (config st))).

End State.

(** ** orders.py *)

Module OrderManager.

(** What one pass over [kite.orders()] tells about an order. *)
Inductive scan_result : Type :=
  | ScanFilled (average_price : Q)   (* [return float(o["average_price"])] *)
  | ScanDead                         (* REJECTED or CANCELLED: [return None] *)
  | ScanRaise                        (* the pass raised; the poll is lost *)
  | ScanNone.                        (* no terminal row for the order *)

(** The inner [for o in orders] of [_wait_for_fill]. *)
Fixpoint scan_orders (order_id : string) (orders : list OrderRow) : scan_result :=
  match orders with
  | [] => ScanNone
  | o :: rest =>
      if String.eqb (row_order_id o) order_id then
        if String.eqb (row_status o) "COMPLETE" then
          match row_average_price o with
          | Some p => ScanFilled p
          | None => ScanRaise
          end
        else if String.eqb (row_status o) "REJECTED"
                || String.eqb (row_status o) "CANCELLED" then ScanDead
        else scan_orders order_id rest
      else scan_orders order_id rest
  end.

(** [pos in positions] followed by [positions.remove(pos)]. *)
Fixpoint remove_first (pos : Leg.t) (l : list Leg.t) : list Leg.t :=
  match l with
  | [] => []
  | p :: rest => if Leg.eqb p pos then rest else p :: remove_first pos rest
  end.

Section WithBroker.
Context {B : Type} (api : Kite B).
Implicit Type st : AgentState B.

Definition call_place_order (req : OrderRequest) st : option string * AgentState B :=
  let '(r, b) := kite_place_order api req (kite st) in
  (r, set_kite b (CallPlaceOrder req) st).

Definition call_cancel_order (order_id : string) st : bool * AgentState B :=
  let '(r, b) := kite_cancel_order api order_id (kite st) in
  (r, set_kite b (CallCancelOrder order_id) st).

Definition call_orders st : option (list OrderRow) * AgentState B :=
  let '(r, b) := kite_orders api (kite st) in
  (r, set_kite b CallOrders st).

Definition call_quote (key : string) st : option QuoteRow * AgentState B :=
  let '(r, b) := kite_quote api key (kite st) in
  (r, set_kite b (CallQuote key) st).

Definition call_instruments (exchange : string) st
  : option (list Instrument) * AgentState B :=
  let '(r, b) := kite_instruments api exchange (kite st) in
  (r, set_kite b (CallInstruments exchange) st).

(** Poll order book until filled or timeout. *)
Fixpoint _wait_for_fill (order_id : string) (timeout : nat) st
  : option Q * AgentState B :=
  match timeout with
  | O => (None, st)
  | S timeout' =>
      let st := sleep 1000 st in
      let '(orders, st) := call_orders st in
      match orders with
      | None => _wait_for_fill order_id timeout' st
      | Some orders =>
          match scan_orders order_id orders with
          | ScanFilled p => (Some p, st)
          | ScanDead => (None, st)
          | ScanRaise | ScanNone => _wait_for_fill order_id timeout' st
          end
      end
  end.

(** Fallback MARKET order. *)
Definition _place_market (symbol : string) (txn : Txn) (qty : Z) (tag : string) st
  : option Q * AgentState B :=
  let '(r, st) :=
    call_place_order
      (mkOrderRequest symbol txn qty ORDER_TYPE_MARKET None
         ("GEKKO_" ++ tag ++ "_MKT")) st in
  match r with
  | Some order_id => _wait_for_fill order_id 15 st
  | None => (None, st)
  end.

(** Place LIMIT order.  If not filled in 10s, cancel and retry as MARKET.
    Returns the position on success, [None] on failure. *)
Definition place_order (symbol side : string) (qty : Z) (price : Q)
    (token : option Z) (tag : string) st : option Leg.t * AgentState B :=
  let txn := if String.eqb side "buy"
             then TRANSACTION_TYPE_BUY else TRANSACTION_TYPE_SELL in
  let '(r, st) :=
    call_place_order
      (mkOrderRequest symbol txn qty ORDER_TYPE_LIMIT (Some price)
         ("GEKKO_" ++ tag)) st in
  match r with
  | None => (None, add_log "GEKKO" MsgOrderError "alert" st)
  | Some order_id =>
      let st := add_log "GEKKO" (MsgOrderLimit side symbol price) "trade" st in
      let '(filled_price, st) := _wait_for_fill order_id 10 st in
      let '(filled_price, st) :=
        match filled_price with
        | None =>
            let '(_, st) := call_cancel_order order_id st in
            _place_market symbol txn qty tag st
        | Some p => (Some p, st)
        end in
      match filled_price with
      | None => (None, add_log "GEKKO" (MsgOrderFailed symbol) "alert" st)
      | Some filled_price =>
          let pos := Leg.mk symbol token side qty filled_price filled_price 0
                       order_id (now st) in
          let st := set_positions (positions st ++ [pos]) st in
          (Some pos,
           add_log "GEKKO" (MsgFilled side symbol filled_price) "trade" st)
      end
  end.

(** The order that [close_position] sends for [pos]. *)
Definition close_request (pos : Leg.t) : OrderRequest :=
  let close_side := if String.eqb (Leg.side pos) "buy" then "sell" else "buy" in
  let txn := if String.eqb close_side "sell"
             then TRANSACTION_TYPE_SELL else TRANSACTION_TYPE_BUY in
  mkOrderRequest (Leg.symbol pos) txn (Leg.qty pos) ORDER_TYPE_MARKET None
    "GEKKO_CLOSE".

(** Close a single position. *)
Definition close_position (pos : Leg.t) st : AgentState B :=
  let close_side := if String.eqb (Leg.side pos) "buy" then "sell" else "buy" in
  let '(r, st) := call_place_order (close_request pos) st in
  match r with
  | Some order_id =>
      let st := add_log "GEKKO" (MsgClose close_side (Leg.symbol pos)) "trade" st in
      if existsb (fun p => Leg.eqb p pos) (positions st)
      then set_positions (remove_first pos (positions st)) st
      else st
  | None => st
  end.

(** Square off all open positions. *)
Definition close_all_positions st : AgentState B :=
  let positions := positions st in
  let st := fold_left (fun st pos => close_position pos st) positions st in
  add_log "GEKKO" (MsgAllClosed (List.length positions)) "trade" st.

(** Lookup instrument token for a symbol. *)
Definition get_instrument_token (symbol exchange : string) st
  : option Z * AgentState B :=
  let '(r, st) := call_instruments exchange st in
  match r with
  | Some instruments =>
      (option_map instrument_token
         (find (fun inst => String.eqb (inst_tradingsymbol inst) symbol)
            instruments), st)
  | None => (None, st)
  end.

End WithBroker.
End OrderManager.

(** ** strategies.py *)

(** Library functions the strategies rely on: the pricing engine on the
    numbers of this layer ([None] when it raises), and the formatting and
    parsing of an expiry date ([strftime("%d%b%y").upper()] of a day number,
    [strptime] giving the instant in milliseconds, [None] when it raises). *)
Record Lib : Type := mkLib {
  full_greeks : Q -> Z -> Q -> Q -> Q -> string -> option GreeksQ;
  strftime : Z -> string;
  strptime : string -> option Z
}.

Definition Qmax (a b : Q) : Q := if Qlt_bool a b then b else a.

Definition is_some {A : Type} (o : option A) : bool :=
  match o with Some _ => true | None => false end.

Module OptionScanner.

Definition step : Z := 50.

(** [round(spot / step) * step] *)
Definition atm (spot : Q) : Z := (py_round_int (spot / inject_Z step) * step)%Z.

(** [[atm + i * step for i in range(-8, 9)]] *)
Definition strikes (spot : Q) : list Z :=
  map (fun i => (atm spot + i * step)%Z) (range (-8) 9).


(** [chain.sort(key=lambda x: x["iv_mismatch"], reverse=True)]: descending,
    equal keys keep their order. *)
Fixpoint insert_desc (x : Opt.t) (l : list Opt.t) : list Opt.t :=
  match l with
  | [] => [x]
  | y :: rest =>
      if Qlt_bool (Opt.iv_mismatch x) (Opt.iv_mismatch y)
      then y :: insert_desc x rest
      else x :: y :: rest
  end.

Definition sort_desc (l : list Opt.t) : list Opt.t :=
  fold_right insert_desc [] l.

Section WithBroker.
Context {B : Type} (api : Kite B) (lib : Lib).
Implicit Type st : AgentState B.

(** Nearest Thursday expiry.  Day 0 of the clock is a Thursday
    ([weekday() = 3]). *)
Definition get_expiry st : string :=
  let today := (now st / 86400000)%Z in
  let weekday := ((today + 3) mod 7)%Z in
  let days := ((3 - weekday) mod 7)%Z in
  let days := if (days =? 0)%Z then 7%Z else days in
  strftime lib (today + days)%Z.

Definition time_to_expiry (expiry_str : string) st : Q :=
  match strptime lib expiry_str with
  | Some exp =>
      Qmax (inject_Z (exp - now st) / 1000 / (365.25 * 24 * 3600))%Q (1 / 365)%Q
  | None => (7 / 365)%Q
  end.

(** The body of the two nested loops of [fetch_and_update_chain] for one
    [strike] and one [opt_type]; every failure skips the contract. *)
Definition scan_contract (expiry : string) (T : Q) (threshold : Q)
    (acc : list Opt.t * AgentState B) (strike : Z) (opt_type : string)
  : list Opt.t * AgentState B :=
  let '(chain, st) := acc in
  let symbol := ("NIFTY" ++ expiry ++ string_of_Z strike ++ opt_type)%string in
  let '(q, st) := OrderManager.call_quote api ("NFO:" ++ symbol) st in
  match q with
  | None => (chain, st)
  | Some q =>
      let ltp := match last_price q with Some p => p | None => 0%Q end in
      let oi := match quote_oi q with Some n => n | None => 0%Z end in
      if Qlt_bool ltp 3 then (chain, st)
      else
        match full_greeks lib (spot st) strike T 0.065%Q ltp opt_type with
        | None => (chain, st)
        | Some greeks =>
            let iv_mismatch := py_round_q (gq_iv greeks - vix st) 2 in
            let '(inst, st) := OrderManager.call_instruments api "NFO" st in
            match inst with
            | None => (chain, st)
            | Some inst =>
                let token :=
                  option_map instrument_token
                    (find (fun i => String.eqb (inst_tradingsymbol i) symbol) inst) in
                (chain ++
                 [Opt.mk symbol token strike opt_type expiry ltp oi iv_mismatch
                    (Qle_bool threshold iv_mismatch)
                    (gq_iv greeks) (gq_delta greeks) (gq_gamma greeks)
                    (gq_theta greeks) (gq_vega greeks) (gq_fair_price greeks)],
                 st)
            end
        end
  end.

(** Pull fresh option chain from the quote API, update [option_chain], return
    the list sorted by IV mismatch (most overpriced first). *)
Definition fetch_and_update_chain st : list Opt.t * AgentState B :=
  let expiry := get_expiry st in
  let T := time_to_expiry expiry st in
  let threshold := iv_mismatch_threshold (config st) in
  let '(chain, st) :=
    fold_left
      (fun acc strike =>
         fold_left (fun acc opt_type => scan_contract expiry T threshold acc strike opt_type)
           ["CE"; "PE"] acc)
      (strikes (spot st)) ([], st) in
  let chain := sort_desc chain in
  (chain, set_option_chain chain st).

Definition hedge_pts st : Z :=
  let hour := ((now st / 3600000) mod 24)%Z in
  if (hour <? 12)%Z then pre_noon_hedge_pts (config st)
  else post_noon_hedge_pts (config st).

End WithBroker.
End OptionScanner.

(** *** Strategy A: IV credit spread *)

Module StrategyA.

(** [{**sell_opt, "entry": ...}] *)
Record ShortLeg : Type := mkShortLeg {
  opt : Opt.t;
  entry : Q
}.

Record t : Type := mk {
  entered : bool;
  short_leg : option ShortLeg;
  hedge_leg : option Leg.t;
  _scan_counter : Z
}.

(** [StrategyA.__init__] *)
Definition init : t := mk false None None 0.

Section WithBroker.
Context {B : Type} (api : Kite B) (lib : Lib).
Implicit Type st : AgentState B.
Implicit Type self : t.

Definition _reset self st : t * AgentState B :=
  (mk false None None (_scan_counter self), set_roll_count 0 st).

Definition _enter (chain : list Opt.t) self st : t * AgentState B :=
  let threshold := iv_mismatch_threshold (config st) in
  let candidates :=
    filter (fun o => Qle_bool threshold (Opt.iv_mismatch o)
                     && (500000 <? Opt.oi o)%Z) chain in
  match candidates with
  | [] => (self, st)
  | sell_opt :: _ =>
      let hedge_pts := OptionScanner.hedge_pts st in
      let hedge_strike :=
        if String.eqb (Opt.type sell_opt) "CE"
        then (Opt.strike sell_opt + hedge_pts)%Z
        else (Opt.strike sell_opt - hedge_pts)%Z in
      let expiry := Opt.expiry sell_opt in
      let hedge_sym :=
        ("NIFTY" ++ expiry ++ string_of_Z hedge_strike ++ Opt.type sell_opt)%string in
      let lot_size := lot_size (config st) in
      let st :=
        add_log "GEKKO"
          (MsgIvMismatch (Opt.symbol sell_opt) (Opt.iv sell_opt) (vix st)
             (Opt.iv_mismatch sell_opt) (Opt.delta sell_opt)) "alert" st in
      (* Get hedge LTP *)
      let '(hedge_q, st) := OrderManager.call_quote api ("NFO:" ++ hedge_sym) st in
      let hedge_ltp :=
        match hedge_q with
        | Some q => match last_price q with Some p => p | None => 0%Q end
        | None => 5.0%Q
        end in
      let net_credit := py_round_q (Opt.ltp sell_opt - hedge_ltp) 2 in
      let st :=
        add_log "GEKKO"
          (MsgEntering (Opt.symbol sell_opt) (Opt.ltp sell_opt) hedge_sym
             hedge_ltp net_credit) "trade" st in
      (* Place orders *)
      let '(sell_pos, st) :=
        OrderManager.place_order api (Opt.symbol sell_opt) "sell" lot_size
          (Opt.ltp sell_opt) (Opt.token sell_opt) "A_SHORT" st in
      let '(hedge_pos, st) :=
        OrderManager.place_order api hedge_sym "buy" lot_size hedge_ltp None
          "A_HEDGE" st in
      match sell_pos, hedge_pos with
      | Some sell_pos, Some hedge_pos =>
          (mk true (Some (mkShortLeg sell_opt (Leg.entry sell_pos)))
              (Some hedge_pos) (_scan_counter self), st)
      | _, _ => (self, st)
      end
  end.

(** Roll short leg 50pts further OTM.  Only [_monitor_positions] calls it, and
    only while a short leg is held. *)
Definition _roll (current_opt : Opt.t) self st : t * AgentState B :=
  let st := set_roll_count (roll_count st + 1) st in
  let st :=
    add_log "GEKKO"
      (MsgRoll (roll_count st) (max_rolls (config st)) (Opt.delta current_opt))
      "alert" st in
  (* Close current short leg *)
  let short_symbol :=
    match short_leg self with
    | Some s => Opt.symbol (opt s)
    | None => ""
    end in
  let short_pos :=
    find (fun p => String.eqb (Leg.symbol p) short_symbol) (positions st) in
  let st :=
    match short_pos with
    | Some short_pos => OrderManager.close_position api short_pos st
    | None => st
    end in
  (* Open new short leg 50pts further *)
  let direction := if String.eqb (Opt.type current_opt) "CE" then 1%Z else (-1)%Z in
  let new_strike := (Opt.strike current_opt + 50 * direction)%Z in
  let new_symbol :=
    ("NIFTY" ++ Opt.expiry current_opt ++ string_of_Z new_strike
       ++ Opt.type current_opt)%string in
  let '(q, st) := OrderManager.call_quote api ("NFO:" ++ new_symbol) st in
  match q with
  | None => (self, st)
  | Some q =>
      let ltp := match last_price q with Some p => p | None => 0%Q end in
      let '(new_pos, st) :=
        OrderManager.place_order api new_symbol "sell" (lot_size (config st))
          ltp None "A_ROLL" st in
      match new_pos with
      | Some new_pos =>
          (mk (entered self)
              (Some (mkShortLeg
                       (Opt.with_strike_symbol current_opt new_strike new_symbol)
                       (Leg.entry new_pos)))
              (hedge_leg self) (_scan_counter self), st)
      | None => (self, st)
      end
  end.

(** Check 50% decay and delta breach. *)
Definition _monitor_positions self st : t * AgentState B :=
  match short_leg self with
  | None => (self, st)
  | Some short =>
      (* Find current LTP of short leg from chain *)
      match find (fun o => String.eqb (Opt.symbol o) (Opt.symbol (opt short)))
                 (option_chain st) with
      | None => (self, st)
      | Some current =>
          let entry_premium := entry short in
          let current_ltp := Opt.ltp current in
          let decay_pct :=
            if Qlt_bool 0 entry_premium
            then (1 - current_ltp / entry_premium)%Q else 0%Q in
          (* 50% decay exit *)
          if Qle_bool (decay_trigger_pct (config st)) decay_pct then
            let st :=
              add_log "GEKKO" (MsgDecay decay_pct (Opt.symbol (opt short)))
                "trade" st in
            let st := OrderManager.close_all_positions api st in
            let st := set_active_strategy None st in
            _reset self st
          (* Delta breach -> roll *)
          else if Qlt_bool (adjustment_delta (config st))
                    (Qabs_val (Opt.delta current))
                  && (roll_count st <? max_rolls (config st))%Z
          then _roll current self st
          else (self, st)
      end
  end.

(** Called every second by the monitor loop. *)
Definition tick self st : t * AgentState B :=
  (* Refresh chain every 60 seconds *)
  let self := mk (entered self) (short_leg self) (hedge_leg self)
                (_scan_counter self + 1) in
  let st :=
    if (_scan_counter self mod 60 =? 0)%Z
    then snd (OptionScanner.fetch_and_update_chain api lib st) else st in
  (* Check exits first *)
  if target_hit st then
    let st := add_log "GEKKO" (MsgTargetHit (session_pnl st)) "trade" st in
    let st := OrderManager.close_all_positions api st in
    let st := set_active_strategy None st in
    _reset self st
  else if sl_hit st then
    let st := add_log "GEKKO" (MsgStopLoss (session_pnl st)) "alert" st in
    let st := OrderManager.close_all_positions api st in
    let st := set_active_strategy None st in
    _reset self st
  (* Enter if no position *)
  else if negb (entered self) && Nat.eqb (List.length (positions st)) 0 then
    let '(chain, st) :=
      match option_chain st with
      | [] => OptionScanner.fetch_and_update_chain api lib st
      | chain => (chain, st)
      end in
    _enter chain self st
  (* Monitor for 50% decay or delta breach *)
  else if entered self && is_some (short_leg self) then
    _monitor_positions self st
  else (self, st).

End WithBroker.
End StrategyA.

(** *** Strategy B: iron condor *)

Module StrategyB.

Record t : Type := mk {
  entered : bool;
  short_ce : option Opt.t;
  short_pe : option Opt.t;
  _scan_counter : Z
}.

(** [StrategyB.__init__] *)
Definition init : t := mk false None None 0.

Section WithBroker.
Context {B : Type} (api : Kite B) (lib : Lib).
Implicit Type st : AgentState B.
Implicit Type self : t.

Definition _reset self st : t * AgentState B :=
  (mk false None None (_scan_counter self), set_roll_count 0 st).

(** One turn of [for sym, side, ltp, tag in [...]] in [_enter]; the result of
    [place_order] is dropped. *)
Definition place_leg st (leg : string * string * Q * string) : AgentState B :=
  let '(sym, side, ltp, tag) := leg in
  let '(_, st) :=
    OrderManager.place_order api sym side (lot_size (config st)) ltp None tag st in
  sleep 500 st.

Definition _enter (chain : list Opt.t) self st : t * AgentState B :=
  let dmin := delta_short_min (config st) in
  let dmax := delta_short_max (config st) in
  let wing := condor_wing_width (config st) in
  let in_band (o : Opt.t) :=
    Qle_bool dmin (Qabs_val (Opt.delta o)) && Qle_bool (Qabs_val (Opt.delta o)) dmax in
  (* Find CE short leg *)
  let ce_cands := filter (fun o => String.eqb (Opt.type o) "CE" && in_band o) chain in
  let pe_cands := filter (fun o => String.eqb (Opt.type o) "PE" && in_band o) chain in
  match ce_cands, pe_cands with
  | sc :: _, sp :: _ =>
      let expiry := Opt.expiry sc in
      let lc_sym := ("NIFTY" ++ expiry ++ string_of_Z (Opt.strike sc + wing) ++ "CE")%string in
      let lp_sym := ("NIFTY" ++ expiry ++ string_of_Z (Opt.strike sp - wing) ++ "PE")%string in
      let '(lc_q, st) := OrderManager.call_quote api ("NFO:" ++ lc_sym) st in
      let '(ltps, st) :=
        match lc_q with
        | Some (mkQuoteRow (Some lc_ltp) _) =>
            let '(lp_q, st) := OrderManager.call_quote api ("NFO:" ++ lp_sym) st in
            match lp_q with
            | Some (mkQuoteRow (Some lp_ltp) _) => ((lc_ltp, lp_ltp), st)
            | _ => ((5.0, 5.0)%Q, st)
            end
        | _ => ((5.0, 5.0)%Q, st)
        end in
      let '(lc_ltp, lp_ltp) := ltps in
      let net_credit :=
        py_round_q (Opt.ltp sc + Opt.ltp sp - lc_ltp - lp_ltp) 2 in
      let st :=
        add_log "GEKKO"
          (MsgIronCondor (Opt.symbol sc) (Opt.ltp sc) (Opt.symbol sp) (Opt.ltp sp)
             net_credit (iv_rank st)) "trade" st in
      (* Place all 4 legs *)
      let st :=
        fold_left place_leg
          [(Opt.symbol sc, "sell", Opt.ltp sc, "B_SHORT_CE");
           (lc_sym,        "buy",  lc_ltp,     "B_LONG_CE");
           (Opt.symbol sp, "sell", Opt.ltp sp, "B_SHORT_PE");
           (lp_sym,        "buy",  lp_ltp,     "B_LONG_PE")] st in
      (mk true (Some sc) (Some sp) (_scan_counter self), st)
  | _, _ => (self, add_log "GEKKO" MsgNoCondorStrikes "alert" st)
  end.

Definition _adjust_wing (current : Opt.t) (opt_type : string) self st
  : t * AgentState B :=
  let st := set_roll_count (roll_count st + 1) st in
  let st :=
    add_log "GEKKO"
      (MsgCondorAdjust (roll_count st) (max_rolls (config st)) opt_type
         (Opt.delta current)) "alert" st in
  (* Close breached short leg *)
  let pos :=
    find (fun p => String.eqb (Leg.symbol p) (Opt.symbol current)) (positions st) in
  let st :=
    match pos with
    | Some pos => OrderManager.close_position api pos st
    | None => st
    end in
  let direction := if String.eqb opt_type "CE" then 1%Z else (-1)%Z in
  let new_strike := (Opt.strike current + 50 * direction)%Z in
  let new_symbol :=
    ("NIFTY" ++ Opt.expiry current ++ string_of_Z new_strike ++ opt_type)%string in
  let '(q, st) := OrderManager.call_quote api ("NFO:" ++ new_symbol) st in
  match q with
  | Some (mkQuoteRow (Some ltp) _) =>
      let '(new_pos, st) :=
        OrderManager.place_order api new_symbol "sell" (lot_size (config st))
          ltp None "B_ADJUST" st in
      match new_pos with
      | Some _ =>
          let moved := Opt.with_strike_symbol current new_strike new_symbol in
          if String.eqb opt_type "CE"
          then (mk (entered self) (Some moved) (short_pe self) (_scan_counter self), st)
          else (mk (entered self) (short_ce self) (Some moved) (_scan_counter self), st)
      | None => (self, st)
      end
  | _ => (self, st)
  end.

(** One turn of the loop of [_monitor] for the short leg [short] of kind
    [opt_type]. *)
Definition monitor_leg (short : option Opt.t) (opt_type : string) self st
  : t * AgentState B :=
  match short with
  | None => (self, st)
  | Some short =>
      match find (fun o => String.eqb (Opt.symbol o) (Opt.symbol short))
                 (option_chain st) with
      | None => (self, st)
      | Some current =>
          if Qlt_bool (adjustment_delta (config st)) (Qabs_val (Opt.delta current))
          then
            if (roll_count st <? max_rolls (config st))%Z
            then _adjust_wing current opt_type self st
            else (self, st)
          else (self, st)
      end
  end.

(** Adjust if short leg delta > threshold.  The list of the two short legs is
    built before the loop runs, from the legs held at that moment. *)
Definition _monitor self st : t * AgentState B :=
  let ce := short_ce self in
  let pe := short_pe self in
  let '(self, st) := monitor_leg ce "CE" self st in
  monitor_leg pe "PE" self st.

Definition tick self st : t * AgentState B :=
  let self := mk (entered self) (short_ce self) (short_pe self)
                (_scan_counter self + 1) in
  let st :=
    if (_scan_counter self mod 60 =? 0)%Z
    then snd (OptionScanner.fetch_and_update_chain api lib st) else st in
  (* Exits *)
  if target_hit st then
    let st := add_log "GEKKO" (MsgTargetHit (session_pnl st)) "trade" st in
    let st := OrderManager.close_all_positions api st in
    let st := set_active_strategy None st in
    _reset self st
  else if sl_hit st then
    let st := add_log "GEKKO" (MsgStopLoss (session_pnl st)) "alert" st in
    let st := OrderManager.close_all_positions api st in
    let st := set_active_strategy None st in
    _reset self st
  else if negb (entered self) then
    if Qle_bool (iv_rank_entry (config st)) (iv_rank st) then
      let '(chain, st) :=
        match option_chain st with
        | [] => OptionScanner.fetch_and_update_chain api lib st
        | chain => (chain, st)
        end in
      _enter chain self st
    else
      (* Log once per minute *)
      if (_scan_counter self mod 60 =? 0)%Z
      then (self,
            add_log "GEKKO"
              (MsgWaitingIvRank (iv_rank_entry (config st)) (iv_rank st)) "info" st)
      else (self, st)
  else _monitor self st.

End WithBroker.
End StrategyB.

(** ** main.py *)

Module Main.
Section WithBroker.
Context {B : Type} (api : Kite B) (lib : Lib).

(** The module-level objects [strat_a], [strat_b] and [state]. *)
Definition App : Type := (StrategyA.t * StrategyB.t * AgentState B)%type.

(** One turn of [strategy_monitor_loop], with the broker connected. *)
Definition strategy_monitor_step (app : App) : App :=
  let '(strat_a, strat_b, state) := app in
  let state := sleep 1000 state in
  if negb (is_market_hours state) then (strat_a, strat_b, state)
  else
    match active_strategy state with
    | Some name =>
        if String.eqb name "A" then
          let '(strat_a, state) := StrategyA.tick api lib strat_a state in
          (strat_a, strat_b, state)
        else if String.eqb name "B" then
          let '(strat_b, state) := StrategyB.tick api lib strat_b state in
          (strat_a, strat_b, state)
        else (strat_a, strat_b, state)
    | None => (strat_a, strat_b, state)
    end.

(** [POST /strategy/start/{name}], with the broker connected; a request that
    is refused leaves the state alone. *)
Definition start_strategy (name : string) (app : App) : App :=
  let '(strat_a, strat_b, state) := app in
  if negb (String.eqb name "A" || String.eqb name "B") then app
  else if is_some (active_strategy state) then app
  else
    (strat_a, strat_b,
     add_log "GEKKO" (MsgActivated name) "info"
       (set_active_strategy (Some name) state)).

(** [POST /strategy/stop] *)
Definition stop_strategy (app : App) : App :=
  let '(strat_a, strat_b, state) := app in
  match active_strategy state with
  | Some _ =>
      let state := OrderManager.close_all_positions api state in
      let state := set_active_strategy None state in
      (strat_a, strat_b, add_log "GEKKO" MsgStopped "alert" state)
  | None => app
  end.

End WithBroker.
End Main.


(** ** market.py *)

Module MarketFeed.

(** The profit of a leg at its mark; a leg whose side is not [buy] counts as
    sold. *)
Definition _calc_position_pnl (pos : Leg.t) : Q :=
  let qty := Leg.qty pos in
  let entry := Leg.entry pos in
  let ltp := Leg.ltp pos in
  let side := Leg.side pos in
  let multiplier := if String.eqb side "buy" then 1%Z else (-1)%Z in
  py_round_q ((ltp - entry) * inject_Z qty * inject_Z multiplier) 2.

Section WithState.
Context {B : Type}.
Implicit Type st : AgentState B.

Definition set_iv_rank (x : Q) st : AgentState B :=
  mkAgentState (kite st) (calls st) (now st) (spot st) (vix st) x
    (option_chain st) (active_strategy st) (positions st) (session_pnl st)
    (roll_count st) (config st) (_log st).

(** Approximate IV rank from the current VIX and its 52-week range; [None]
    when the range is empty and the division raises. *)
Definition _update_iv_rank st : option (AgentState B) :=
  let vix_52w_low := vix_52w_low (config st) in
  let vix_52w_high := vix_52w_high (config st) in
  if Qeq_bool (vix_52w_high - vix_52w_low) 0 then None
  else
    Some (set_iv_rank
            (py_round_q
               ((vix st - vix_52w_low) / (vix_52w_high - vix_52w_low) * 100) 1)
            st).

End WithState.
End MarketFeed.

(** ** main.py, the loop *)

Module MainLoop.
Section WithBroker.
Context {B : Type} (api : Kite B) (lib : Lib).

(** [turns] turns of [strategy_monitor_loop]. *)
Fixpoint strategy_monitor_loop (turns : nat) (app : Main.App (B := B))
  : Main.App (B := B) :=
  match turns with
  | O => app
  | S turns' =>
      strategy_monitor_loop turns' (Main.strategy_monitor_step api lib app)
  end.

End WithBroker.
End MainLoop.
(** ** Vocabulary of the statements *)

Section Observations.
Context {B : Type} (api : Kite B).

(** The LIMIT order that [place_order] sends first. *)
Definition limit_request (symbol side : string) (qty : Z) (price : Q) (tag : string)
  : OrderRequest :=
  mkOrderRequest symbol
    (if String.eqb side "buy" then TRANSACTION_TYPE_BUY else TRANSACTION_TYPE_SELL)
    qty ORDER_TYPE_LIMIT (Some price) ("GEKKO_" ++ tag).

(** The MARKET order that [_place_market] sends. *)
Definition market_request (symbol side : string) (qty : Z) (tag : string)
  : OrderRequest :=
  mkOrderRequest symbol
    (if String.eqb side "buy" then TRANSACTION_TYPE_BUY else TRANSACTION_TYPE_SELL)
    qty ORDER_TYPE_MARKET None ("GEKKO_" ++ tag ++ "_MKT").

(** What [n] successive calls of [kite.orders()] return, starting from the
    broker state [b], and the broker state they leave. *)
Fixpoint poll_seq (n : nat) (b : B) : list (option (list OrderRow)) :=
  match n with
  | O => []
  | S n' => let '(r, b') := kite_orders api b in r :: poll_seq n' b'
  end.

Fixpoint poll_state (n : nat) (b : B) : B :=
  match n with
  | O => b
  | S n' => poll_state n' (snd (kite_orders api b))
  end.

(** What one poll shows about an order; a poll that raises shows nothing. *)
Definition poll_status (order_id : string) (r : option (list OrderRow))
  : OrderManager.scan_result :=
  match r with
  | Some rows => OrderManager.scan_orders order_id rows
  | None => OrderManager.ScanRaise
  end.

(** The poll shows no terminal status for the order. *)
Definition pending (order_id : string) (r : option (list OrderRow)) : Prop :=
  poll_status order_id r = OrderManager.ScanNone \/
  poll_status order_id r = OrderManager.ScanRaise.

(** The first poll of [polls] that shows a terminal status for the order shows
    it COMPLETE with average price [p]. *)
Definition fills (order_id : string) (p : Q)
    (polls : list (option (list OrderRow))) : Prop :=
  exists pre r post,
    polls = pre ++ r :: post /\ Forall (pending order_id) pre /\
    poll_status order_id r = OrderManager.ScanFilled p.

(** The MARKET fallback, sent to the broker in state [b], does not fill: the
    order is refused, or no COMPLETE status is seen first in its 15 polls. *)
Definition market_unfilled (symbol side : string) (qty : Z) (tag : string) (b : B)
  : Prop :=
  match kite_place_order api (market_request symbol side qty tag) b with
  | (None, _) => True
  | (Some order_id, b') => forall p, ~ fills order_id p (poll_seq 15 b')
  end.

(** The part of the state that neither the order executor nor a chain rescan
    writes. *)
Definition static (st : AgentState B) :=
  (config st, session_pnl st, roll_count st, active_strategy st,
   spot st, vix st, iv_rank st).

(** [st'] differs from [st] at most in the broker, the clock, the ledger and
    the log. *)
Definition executor_frame (st st' : AgentState B) : Prop :=
  static st' = static st /\ option_chain st' = option_chain st.

(** The broker call by which [close_position] closes the leg [p]. *)
Definition close_call (p : Leg.t) : Call :=
  CallPlaceOrder (OrderManager.close_request p).

(** Broker calls that only read market data. *)
Definition lookup_only (d : list Call) : Prop :=
  Forall (fun c => match c with
                   | CallQuote _ | CallInstruments _ => True
                   | _ => False
                   end) d.

(** [st'] is [st] after a chain rescan: only the broker, the trace (by market
    data lookups) and the chain snapshot may differ. *)
Definition rescanned (st st' : AgentState B) : Prop :=
  static st' = static st /\ positions st' = positions st /\
  exists d, calls st' = calls st ++ d /\ lookup_only d.

(** The broker never refuses an order. *)
Definition accepts_orders : Prop :=
  forall req b, fst (kite_place_order api req b) <> None.

(** What an exit leaves of the shared state [st]: no active strategy, a
    roll counter back at 0, one closing order for every leg that was open and
    no other order, no leg other than legs that were open, and an empty ledger
    when the broker accepts the closing orders. *)
Definition flattened (st st' : AgentState B) : Prop :=
  active_strategy st' = None /\ roll_count st' = 0%Z /\
  (exists scan,
     lookup_only scan /\
     calls st' =
       calls st ++ scan ++ map close_call (positions st)) /\
  (forall q, In q (positions st') -> In q (positions st)) /\
  (accepts_orders -> positions st' = []).

End Observations.

(** One thing that happens to the application while it runs: a turn of the
    strategy loop, a start or stop request, or a write by another component
    (the price feed writes prices, the chain and the ledger's marks) that
    leaves the configuration and the roll counter alone. *)
Inductive run_step {B : Type} (api : Kite B) (lib : Lib)
  : Main.App (B := B) -> Main.App (B := B) -> Prop :=
  | StepMonitor (app : Main.App) :
      run_step api lib app (Main.strategy_monitor_step api lib app)
  | StepStart (name : string) (app : Main.App) :
      run_step api lib app (Main.start_strategy name app)
  | StepStop (app : Main.App) :
      run_step api lib app (Main.stop_strategy api app)
  | StepFeed (a : StrategyA.t) (b : StrategyB.t) (st st' : AgentState B) :
      config st' = config st -> roll_count st' = roll_count st ->
      run_step api lib (a, b, st) (a, b, st').

(** Any number of such steps. *)
Inductive run {B : Type} (api : Kite B) (lib : Lib)
  : Main.App (B := B) -> Main.App (B := B) -> Prop :=
  | RunDone (app : Main.App) : run api lib app app
  | RunStep (app1 app2 app3 : Main.App) :
      run api lib app1 app2 -> run_step api lib app2 app3 -> run api lib app1 app3.

(** ** Brokers and states for examples *)

Module Paper.

(** A broker whose state counts the polls made so far.  Every order gets the
    identifier 1 and is reported OPEN until [k] polls have been made, then
    COMPLETE at 101.5; orders are refused when [accept] is false. *)
Definition slow_kite (accept : bool) (k : nat) : Kite nat :=
  mkKite
    (fun _ n => (if accept then Some "1" else None, n))
    (fun _ n => (true, n))
    (fun n => (Some [mkOrderRow "1" (if Nat.leb k n then "COMPLETE" else "OPEN")
                       (Some 101.5%Q)], S n))
    (fun _ n => (Some (mkQuoteRow (Some 5%Q) (Some 0%Z)), n))
    (fun _ n => (Some [], n)).

Definition lib : Lib :=
  mkLib (fun _ _ _ _ _ _ => Some (mkGreeksQ 19 0.25 0 0 0 100))
        (fun _ => "28NOV24") (fun _ => None).

(** A session at 10:00 with spot 22000, volatility index 15 and an empty
    ledger. *)
Definition state0 : AgentState nat :=
  mkAgentState 0%nat [] 36000000 22000 15 80 [] (Some "B") [] 0 0 default_config [].

Definition call_22200 : Opt.t :=
  Opt.mk "NIFTY28NOV2422200CE" None 22200 "CE" "28NOV24" 100 600000 4 true
         19 0.25 0 0 0 100.

Definition put_21800 : Opt.t :=
  Opt.mk "NIFTY28NOV2421800PE" None 21800 "PE" "28NOV24" 90 600000 3 true
         18 (-0.25) 0 0 0 90.

Definition chain0 : list Opt.t := [call_22200; put_21800].

Definition leg0 : Leg.t :=
  Leg.mk "NIFTY28NOV2422200CE" None "sell" 50 100 100 0 "1" 36000000.

Definition hedge0 : Leg.t :=
  Leg.mk "NIFTY28NOV2422600CE" None "buy" 50 20 20 0 "1" 36000000.

(** A run of each variant that has entered. *)
Definition run_a : StrategyA.t :=
  StrategyA.mk true (Some (StrategyA.mkShortLeg call_22200 100)) (Some hedge0) 7.

Definition run_b : StrategyB.t :=
  StrategyB.mk true (Some call_22200) (Some put_21800) 7.


(** Both short strikes with a delta beyond the adjustment threshold 0.45. *)
Definition breached_chain : list Opt.t :=
  [Opt.mk "NIFTY28NOV2422200CE" None 22200 "CE" "28NOV24" 180 600000 4 true
          19 0.60 0 0 0 180;
   Opt.mk "NIFTY28NOV2421800PE" None 21800 "PE" "28NOV24" 170 600000 3 true
          18 (-0.55) 0 0 0 170].

(** The same moment with [n] rolls made, of the 5 that are allowed. *)
Definition state_rolled (n : Z) : AgentState nat :=
  mkAgentState 0%nat [] 36000000 22000 15 80 breached_chain (Some "B") [leg0]
    0 n default_config [].

End Paper.



(** ** Further vocabulary *)

(** The weekday of a day of the clock, Monday being 0: day 0 is a Thursday. *)
Definition weekday (day : Z) : Z := ((day + 3) mod 7)%Z.

(** The chain is in descending order of IV mismatch. *)
Definition most_overpriced_first (chain : list Opt.t) : Prop :=
  forall pre o1 mid o2 post,
    chain = pre ++ o1 :: mid ++ o2 :: post ->
    (Opt.iv_mismatch o2 <= Opt.iv_mismatch o1)%Q.

Module Scenario.

(** A broker that takes every order under the identifier 1 and reports it
    with the given status ever after. *)
Definition dead_kite (status : string) : Kite nat :=
  mkKite
    (fun _ n => (Some "1", n))
    (fun _ n => (true, n))
    (fun n => (Some [mkOrderRow "1" status None], S n))
    (fun _ n => (Some (mkQuoteRow (Some 5%Q) (Some 0%Z)), n))
    (fun _ n => (Some [mkInstrument "NIFTY28NOV2422200CE" 11;
                       mkInstrument "NIFTY28NOV2421800PE" 12;
                       mkInstrument "NIFTY28NOV2422200CE" 13], n)).

(** An idle run of variant A with a stray leg in the ledger, at 10:00. *)
Definition state_stray : AgentState nat :=
  mkAgentState 0%nat [] 36000000 22000 15 40 Paper.chain0 (Some "A")
    [Paper.leg0] 0 0 default_config [].

(** The short strike of [Paper.run_a] at 40, sold at 100. *)
Definition decayed_chain : list Opt.t :=
  [Opt.mk "NIFTY28NOV2422200CE" None 22200 "CE" "28NOV24" 40 600000 4 true
          19 0.10 0 0 0 40].

Definition state_decayed : AgentState nat :=
  mkAgentState 0%nat [] 36000000 22000 15 80 decayed_chain (Some "A")
    [Paper.leg0; Paper.hedge0] 0 0 default_config [].

(** A session with no strategy chosen, at 10:00. *)
Definition state_idle : AgentState nat :=
  mkAgentState 0%nat [] 36000000 22000 15 80 Paper.chain0 None [Paper.leg0]
    0 0 default_config [].

End Scenario.
(** * Properties *)

(** ** The pricing engine *)

Module BSGreeksSpec.
Import BSGreeks.
Local Open Scope R_scope.

Lemma norm_pdf_even (x : R) : norm_pdf (- x) = norm_pdf x.
Proof. unfold norm_pdf. replace (- x * - x) with (x * x) by ring. reflexivity. Qed.

Lemma norm_pdf_mirror_integral (a : R) (pr1 : Riemann_integrable norm_pdf 0 a)
    (pr2 : Riemann_integrable norm_pdf (- a) 0) :
  0 <= a -> RiemannInt pr1 = RiemannInt pr2.
Proof.
  intros Ha.
  assert (Hn : - a <= 0) by lra.
  assert (C1 : forall x, 0 <= x <= a -> continuity_pt norm_pdf x)
    by (intros; apply norm_pdf_continuity).
  assert (C2 : forall x, - a <= x <= 0 -> continuity_pt norm_pdf x)
    by (intros; apply norm_pdf_continuity).
  set (P1 := primitive Ha (FTC_P1 Ha C1)).
  set (P2 := primitive Hn (FTC_P1 Hn C2)).
  assert (A1 : antiderivative norm_pdf P1 0 a) by apply RiemannInt_P29.
  assert (A2 : antiderivative norm_pdf (fun t => - P2 (- t)) 0 a).
  { split; [| exact Ha].
    intros x Hx.
    assert (D : derivable_pt_lim (fun t => - P2 (- t)) x (norm_pdf x)).
    { assert (D2 : derivable_pt_lim P2 (- x) (norm_pdf (- x))).
      { apply RiemannInt_P28. lra. }
      assert (D3 : derivable_pt_lim (comp P2 (- id)) x (norm_pdf (- x) * - 1)).
      { apply derivable_pt_lim_comp.
        - apply derivable_pt_lim_opp. apply derivable_pt_lim_id.
        - exact D2. }
      apply derivable_pt_lim_opp in D3.
      rewrite norm_pdf_even in D3.
      replace (norm_pdf x) with (- (norm_pdf x * - 1)) by ring.
      exact D3. }
    exists (exist _ _ D). simpl. reflexivity. }
  destruct (antiderivative_Ucte _ _ _ _ _ A1 A2) as [c Hc].
  rewrite (RiemannInt_P20 Ha (FTC_P1 Ha C1) pr1).
  rewrite (RiemannInt_P20 Hn (FTC_P1 Hn C2) pr2).
  fold P1 P2.
  rewrite (Hc a) by lra. rewrite (Hc 0) by lra.
  replace (- 0) with 0 by ring. ring.
Qed.

Lemma norm_cdf_opp (x : R) : norm_cdf (- x) = 1 - norm_cdf x.
Proof.
  unfold norm_cdf.
  enough (RiemannInt (norm_pdf_integrable 0 (- x))
          = - RiemannInt (norm_pdf_integrable 0 x)) by lra.
  destruct (Rle_dec 0 x) as [Hx | Hx].
  - rewrite (norm_pdf_mirror_integral x (norm_pdf_integrable 0 x)
               (norm_pdf_integrable (- x) 0) Hx).
    apply RiemannInt_P8.
  - assert (Hx' : 0 <= - x) by lra.
    assert (E : Riemann_integrable norm_pdf (- - x) 0).
    { replace (- - x) with x by ring. apply norm_pdf_integrable. }
    rewrite (norm_pdf_mirror_integral (- x) (norm_pdf_integrable 0 (- x)) E Hx').
    rewrite (RiemannInt_P8 (norm_pdf_integrable 0 x) (norm_pdf_integrable x 0)).
    rewrite Ropp_involutive.
    clear. revert E. rewrite Ropp_involutive. intros E. apply RiemannInt_P5.
Qed.


Lemma clamp_range (x : R) : 0.001 <= Rmax 0.001 (Rmin x 5.0) <= 5.
Proof.
  split.
  - apply Rmax_l.
  - apply Rmax_lub; [lra |].
    apply Rle_trans with 5.0; [apply Rmin_r | lra].
Qed.

Lemma iv_newton_range (mp S K T r : R) (opt : string) (tol : R) (n : nat) :
  forall sigma, 0.001 <= sigma <= 5 ->
  0.001 <= fst (iv_newton mp S K T r opt tol n sigma) <= 5.
Proof.
  induction n as [| n IH]; intros sigma Hs; simpl.
  - exact Hs.
  - destruct (Rlt_dec _ _); [exact Hs |].
    destruct (Rlt_dec _ _); simpl.
    + apply clamp_range.
    + apply IH. apply clamp_range.
Qed.

Lemma implied_volatility_range (mp S K T r : R) (opt : string) :
  0 < mp -> 0.001 <= implied_volatility mp S K T r opt <= 5.
Proof.
  intros Hmp. unfold implied_volatility, implied_volatility_with.
  destruct (Rle_dec mp 0); [lra |].
  apply iv_newton_range. lra.
Qed.













Lemma put_from_call (S K T r sigma : R) :
  price S K T r sigma "PE"
  = price S K T r sigma "CE" - S + K * exp (- r * T).
Proof.
  unfold price. simpl. rewrite !norm_cdf_opp. ring.
Qed.

Lemma dlim_eq (f : R -> R) (x l l' : R) :
  derivable_pt_lim f x l -> l = l' -> derivable_pt_lim f x l'.
Proof. intros H <-. exact H. Qed.

Lemma norm_cdf_derivative (x : R) : derivable_pt_lim norm_cdf x (norm_pdf x).
Proof.
  set (a := Rmin 0 x - 1). set (b := Rmax 0 x + 1).
  assert (Ha : a < 0 /\ a < x)
    by (unfold a; generalize (Rmin_l 0 x) (Rmin_r 0 x); lra).
  assert (Hb : 0 < b /\ x < b)
    by (unfold b; generalize (Rmax_l 0 x) (Rmax_r 0 x); lra).
  assert (h : a <= b) by lra.
  assert (C0 : forall y, a <= y <= b -> continuity_pt norm_pdf y)
    by (intros; apply norm_pdf_continuity).
  set (P := primitive h (FTC_P1 h C0)).
  assert (HP : forall z, a < z < b ->
             (P + fct_cte (1 / 2 - RiemannInt (norm_pdf_integrable a 0)))%F z
             = norm_cdf z).
  { intros z Hz. unfold plus_fct, fct_cte, norm_cdf, P, primitive.
    destruct (Rle_dec a z) as [Haz | Haz]; [| lra].
    destruct (Rle_dec z b) as [Hzb | Hzb]; [| lra].
    rewrite <- (RiemannInt_P26 (norm_pdf_integrable a 0) (norm_pdf_integrable 0 z)
                  (FTC_P1 h C0 Haz Hzb)).
    ring. }
  apply (derivable_pt_lim_locally_ext _ _ x a b _ (conj (proj2 Ha) (proj2 Hb)) HP).
  apply dlim_eq with (norm_pdf x + 0); [| ring].
  apply derivable_pt_lim_plus.
  - apply RiemannInt_P27. lra.
  - apply derivable_pt_lim_const.
Qed.

Section Vega.
Variables S K T r : R.
Hypothesis HS : 0 < S.
Hypothesis HK : 0 < K.
Hypothesis HT : 0 < T.

Lemma sqrt_T_pos : 0 < sqrt T.
Proof. apply sqrt_lt_R0. exact HT. Qed.

Lemma sqrt_T_sqr : sqrt T * sqrt T = T.
Proof. apply sqrt_sqrt. lra. Qed.

Lemma d1_derivative (sigma : R) :
  sigma <> 0 ->
  derivable_pt_lim (d1 S K T r) sigma (- d2 S K T r sigma / sigma).
Proof.
  intros Hs.
  assert (Hq := sqrt_T_pos).
  assert (Hq2 := sqrt_T_sqr).
  set (f1 := (fct_cte (ln (S / K))
              + (fct_cte r + fct_cte 0.5 * (fun y => y ^ 2)) * fct_cte T)%F).
  set (f2 := (id * fct_cte (sqrt T))%F).
  apply derivable_pt_lim_ext with (f1 / f2)%F.
  { intros z. reflexivity. }
  assert (D1 : derivable_pt_lim f1 sigma (sigma * T)).
  { unfold f1.
    eapply dlim_eq.
    - apply derivable_pt_lim_plus; [apply derivable_pt_lim_const |].
      apply derivable_pt_lim_mult; [| apply derivable_pt_lim_const].
      apply derivable_pt_lim_plus; [apply derivable_pt_lim_const |].
      apply derivable_pt_lim_mult; [apply derivable_pt_lim_const |].
      apply (derivable_pt_lim_pow sigma 2).
    - unfold fct_cte, plus_fct, mult_fct. simpl. lra. }
  assert (D2 : derivable_pt_lim f2 sigma (sqrt T)).
  { unfold f2.
    eapply dlim_eq.
    - apply derivable_pt_lim_mult; [apply derivable_pt_lim_id | apply derivable_pt_lim_const].
    - unfold fct_cte, id. lra. }
  eapply dlim_eq.
  - apply (derivable_pt_lim_div f1 f2 sigma _ _ D1 D2).
    unfold f2, mult_fct, id, fct_cte. nra.
  - unfold f1, f2, d2, d1, Rsqr, fct_cte, plus_fct, mult_fct, id.
    set (L := ln (S / K)). set (q := sqrt T) in *.
    replace T with (q * q) by exact Hq2.
    simpl. field. lra.
Qed.

Lemma d2_derivative (sigma : R) :
  sigma <> 0 ->
  derivable_pt_lim (d2 S K T r) sigma (- d2 S K T r sigma / sigma - sqrt T).
Proof.
  intros Hs.
  apply derivable_pt_lim_ext with (d1 S K T r - id * fct_cte (sqrt T))%F.
  { intros z. reflexivity. }
  apply derivable_pt_lim_minus; [apply d1_derivative; exact Hs |].
  eapply dlim_eq.
  - apply derivable_pt_lim_mult; [apply derivable_pt_lim_id | apply derivable_pt_lim_const].
  - unfold fct_cte, id. lra.
Qed.

(** The identity behind vega: [K e^(-rT) pdf(d2) = S pdf(d1)]. *)
Lemma discounted_density (sigma : R) :
  sigma <> 0 ->
  K * exp (- r * T) * norm_pdf (d2 S K T r sigma)
  = S * norm_pdf (d1 S K T r sigma).
Proof.
  intros Hs.
  assert (Hq := sqrt_T_pos). assert (Hq2 := sqrt_T_sqr).
  assert (HSK : 0 < S / K) by (apply Rdiv_lt_0_compat; assumption).
  assert (Hd : - (d2 S K T r sigma * d2 S K T r sigma) / 2
               = - (d1 S K T r sigma * d1 S K T r sigma) / 2
                 + (ln (S / K) + r * T)).
  { unfold d2.
    assert (E : d1 S K T r sigma * (sigma * sqrt T)
                = ln (S / K) + (r + 0.5 * sigma ^ 2) * T).
    { unfold d1. field. split; lra. }
    set (x := d1 S K T r sigma) in *. set (q := sqrt T) in *.
    set (L := ln (S / K)) in *.
    assert (E2 : x * sigma * q = L + r * T + 0.5 * sigma * sigma * (q * q)).
    { rewrite Hq2. simpl in E. lra. }
    nra. }
  unfold norm_pdf. rewrite Hd, exp_plus, exp_plus, (exp_ln _ HSK).
  assert (Hs2 : 0 < sqrt (2 * PI))
    by (apply sqrt_lt_R0; generalize PI_RGT_0; lra).
  assert (He : exp (- r * T) * exp (r * T) = 1).
  { rewrite <- exp_plus. replace (- r * T + r * T) with 0 by ring. apply exp_0. }
  set (e1 := exp (- (d1 S K T r sigma * d1 S K T r sigma) / 2)).
  set (a := exp (- r * T)) in *. set (b := exp (r * T)) in *.
  set (s2 := sqrt (2 * PI)) in *.
  replace (K * a * (e1 * (S / K * b) / s2)) with (S * (e1 / s2) * (a * b))
    by (field; lra).
  rewrite He. ring.
Qed.


Lemma call_price_derivative (sigma : R) :
  sigma <> 0 ->
  derivable_pt_lim (fun s => price S K T r s "CE") sigma (vega S K T r sigma * 100).
Proof.
  intros Hs.
  set (c := K * exp (- r * T)).
  apply derivable_pt_lim_ext
    with (fct_cte S * comp norm_cdf (d1 S K T r)
          - fct_cte c * comp norm_cdf (d2 S K T r))%F.
  { intros z. reflexivity. }
  eapply dlim_eq.
  - apply derivable_pt_lim_minus.
    + apply derivable_pt_lim_mult; [apply derivable_pt_lim_const |].
      apply derivable_pt_lim_comp;
        [apply d1_derivative; exact Hs | apply norm_cdf_derivative].
    + apply derivable_pt_lim_mult; [apply derivable_pt_lim_const |].
      apply derivable_pt_lim_comp;
        [apply d2_derivative; exact Hs | apply norm_cdf_derivative].
  - unfold fct_cte, comp, vega.
    assert (Hid := discounted_density sigma Hs). fold c in Hid.
    set (p1 := norm_pdf (d1 S K T r sigma)) in *.
    set (p2 := norm_pdf (d2 S K T r sigma)) in *.
    set (x := - d2 S K T r sigma / sigma).
    replace (c * (p2 * (x - sqrt T))) with (c * p2 * (x - sqrt T)) by ring.
    rewrite Hid. field.
Qed.

Lemma price_derivative (opt_type : string) (sigma : R) :
  sigma <> 0 ->
  derivable_pt_lim (fun s => price S K T r s opt_type) sigma
    (vega S K T r sigma * 100).
Proof.
  intros Hs.
  destruct (String.eqb opt_type "CE") eqn:E.
  - apply derivable_pt_lim_ext with (fun s => price S K T r s "CE").
    { intros z. unfold price. rewrite E. reflexivity. }
    apply call_price_derivative. exact Hs.
  - apply derivable_pt_lim_ext
      with ((fun s => price S K T r s "CE") + fct_cte (- S + K * exp (- r * T)))%F.
    { intros z. unfold plus_fct, fct_cte.
      transitivity (price S K T r z "PE").
      - rewrite put_from_call. ring.
      - unfold price. rewrite E. reflexivity. }
    eapply dlim_eq.
    + apply derivable_pt_lim_plus;
        [apply call_price_derivative; exact Hs | apply derivable_pt_lim_const].
    + ring.
Qed.



End Vega.

Lemma round_half_even_ge (n : Z) (y : R) : IZR n <= y -> (n <= round_half_even y)%Z.
Proof.
  intros Hy. unfold round_half_even.
  destruct (base_Int_part y) as [_ Hf].
  assert (Hn : (n <= Int_part y)%Z).
  { apply Z.lt_succ_r. apply lt_IZR. rewrite succ_IZR. lra. }
  destruct (Rlt_dec _ _); [exact Hn |].
  destruct (Rlt_dec _ _); [lia |].
  destruct (Z.even _); lia.
Qed.




(** C4.  Put-call parity: the put price is the call price minus the spot plus
    the discounted strike, exactly over the reals; in particular for all
    positive [S], [K], [T], [r], [sigma]. *)
Theorem put_call_parity (S K T r sigma : R) :
  price S K T r sigma "PE"
  = price S K T r sigma "CE" - S + K * exp (- r * T).
Proof.
  unfold price. simpl. rewrite !norm_cdf_opp. ring.
Qed.




(** C6.  For a market price that is zero or negative, and either option kind,
    all six fields of the Greeks bundle are zero. *)
Theorem full_greeks_zero (S K T r market_price : R) (opt_type : string) :
  market_price <= 0 ->
  full_greeks S K T r market_price opt_type = mkGreeks 0 0 0 0 0 0.
Proof.
  intros H. unfold full_greeks, implied_volatility, implied_volatility_with.
  destruct (Rle_dec market_price 0); [| contradiction].
  destruct (Rle_dec 0.0 0); [reflexivity | lra].
Qed.

Lemma full_greeks_zero_witness :
  full_greeks 22000 22000 (7 / 365) 0.065 0 "CE" = mkGreeks 0 0 0 0 0 0 /\
  full_greeks 22000 22000 (7 / 365) 0.065 (- 1) "PE" = mkGreeks 0 0 0 0 0 0.
Proof.
  split; apply full_greeks_zero; lra.
Defined.

(** C10.  For a positive market price the solved volatility lies in
    [[0.001, 5.0]], so it is positive, and [full_greeks] takes its second
    branch: the bundle is computed from the solved volatility and its [iv]
    field is positive. *)
Theorem implied_volatility_clamped (S K T r market_price : R) (opt_type : string) :
  0 < market_price ->
  let sigma := implied_volatility market_price S K T r opt_type in
  0.001 <= sigma <= 5.0 /\ 0 < sigma /\
  full_greeks S K T r market_price opt_type
  = mkGreeks (py_round (sigma * 100) 2)
             (py_round (delta S K T r sigma opt_type) 4)
             (py_round (gamma S K T r sigma) 5)
             (py_round (theta S K T r sigma opt_type) 2)
             (py_round (vega S K T r sigma) 4)
             (py_round (price S K T r sigma opt_type) 2) /\
  0 < iv (full_greeks S K T r market_price opt_type).
Proof.
  intros Hmp sigma.
  assert (Hr : 0.001 <= sigma <= 5) by (apply implied_volatility_range; exact Hmp).
  assert (Hfull : full_greeks S K T r market_price opt_type
                  = mkGreeks (py_round (sigma * 100) 2)
                      (py_round (delta S K T r sigma opt_type) 4)
                      (py_round (gamma S K T r sigma) 5)
                      (py_round (theta S K T r sigma opt_type) 2)
                      (py_round (vega S K T r sigma) 4)
                      (py_round (price S K T r sigma opt_type) 2)).
  { unfold full_greeks. fold sigma.
    destruct (Rle_dec sigma 0); [lra | reflexivity]. }
  repeat split; try lra; [exact Hfull |].
  rewrite Hfull. simpl. unfold py_round.
  assert (Hge : (10 <= round_half_even (sigma * 100 * 10 ^ 2))%Z).
  { apply round_half_even_ge. simpl. lra. }
  apply IZR_le in Hge.
  apply Rdiv_lt_0_compat; [lra | simpl; lra].
Qed.

Lemma implied_volatility_clamped_witness :
  0.001 <= implied_volatility 120 22000 22000 (7 / 365) 0.065 "CE" <= 5.0 /\
  0 < implied_volatility 120 22000 22000 (7 / 365) 0.065 "PE" /\
  0 < iv (full_greeks 22000 22000 (7 / 365) 0.065 120 "CE").
Proof.
  assert (H : 0 < 120) by lra.
  split; [apply (implied_volatility_clamped 22000 22000 (7 / 365) 0.065 120 "CE" H) |].
  split; [apply (implied_volatility_clamped 22000 22000 (7 / 365) 0.065 120 "PE" H) |].
  apply (implied_volatility_clamped 22000 22000 (7 / 365) 0.065 120 "CE" H).
Defined.

End BSGreeksSpec.

(** ** The order executor *)

Section OrderFacts.
Context {B : Type} (api : Kite B).

Lemma executor_frame_refl (st : AgentState B) : executor_frame st st.
Proof. split; reflexivity. Qed.

Lemma executor_frame_trans (st1 st2 st3 : AgentState B) :
  executor_frame st1 st2 -> executor_frame st2 st3 -> executor_frame st1 st3.
Proof.
  intros [H1 H2] [H3 H4]. split; congruence.
Qed.

Lemma wait_for_fill_frame (id : string) (n : nat) :
  forall st,
    let st' := snd (OrderManager._wait_for_fill api id n st) in
    executor_frame st st' /\ positions st' = positions st /\ _log st' = _log st.
Proof.
  induction n as [| n IH]; intros st.
  - simpl. auto using executor_frame_refl.
  - simpl. unfold OrderManager.call_orders.
    destruct (kite_orders api (kite (sleep 1000 st))) as [r b] eqn:E.
    set (s := set_kite b CallOrders (sleep 1000 st)).
    assert (Hs : executor_frame st s /\ positions s = positions st /\ _log s = _log st)
      by (repeat split).
    assert (G : executor_frame st (snd (OrderManager._wait_for_fill api id n s)) /\
                positions (snd (OrderManager._wait_for_fill api id n s)) = positions st /\
                _log (snd (OrderManager._wait_for_fill api id n s)) = _log st).
    { destruct (IH s) as (H1 & H2 & H3). destruct Hs as (H4 & H5 & H6).
      split; [apply (executor_frame_trans _ s); assumption | split; congruence]. }
    destruct r as [rows |]; [| exact G].
    destruct (OrderManager.scan_orders id rows); simpl; auto.
Qed.

Lemma wait_for_fill_filled (id : string) (p : Q) (n : nat) :
  forall st, fills id p (poll_seq api n (kite st)) ->
    fst (OrderManager._wait_for_fill api id n st) = Some p.
Proof.
  induction n as [| n IH]; intros st (pre & r & post & E & Hpre & Hr); simpl in *.
  - destruct pre; discriminate.
  - unfold OrderManager.call_orders. simpl.
    destruct (kite_orders api (kite st)) as [r0 b] eqn:Eo.
    destruct pre as [| r1 pre]; simpl in E; inversion E; subst; clear E.
    + destruct r as [rows |]; simpl in Hr; [| discriminate].
      rewrite Hr. reflexivity.
    + inversion Hpre as [| ? ? Hp Hpre']; subst.
      assert (Hrec : fst (OrderManager._wait_for_fill api id n
                 (set_kite b CallOrders (sleep 1000 st))) = Some p).
      { apply IH. simpl. exists pre, r, post. auto. }
      destruct r1 as [rows |]; [| exact Hrec].
      destruct Hp as [Hp | Hp]; simpl in Hp; rewrite Hp; exact Hrec.
Qed.

Lemma wait_for_fill_pending (id : string) (n : nat) :
  forall st, Forall (pending id) (poll_seq api n (kite st)) ->
    let out := OrderManager._wait_for_fill api id n st in
    fst out = None /\ kite (snd out) = poll_state api n (kite st) /\
    calls (snd out) = calls st ++ repeat CallOrders n.
Proof.
  induction n as [| n IH]; intros st Hp; simpl in *.
  - rewrite app_nil_r. repeat split; auto.
  - unfold OrderManager.call_orders. simpl.
    destruct (kite_orders api (kite st)) as [r0 b] eqn:Eo.
    inversion Hp as [| ? ? Hp0 Hp']; subst. simpl.
    assert (Hrec := IH (set_kite b CallOrders (sleep 1000 st)) Hp').
    simpl in Hrec. destruct Hrec as (H1 & H2 & H3).
    rewrite <- app_assoc in H3. simpl in H3.
    destruct r0 as [rows |]; [| auto].
    destruct Hp0 as [Hp0 | Hp0]; simpl in Hp0; rewrite Hp0; auto.
Qed.

Lemma wait_for_fill_calls (id : string) (n : nat) :
  forall st, exists k, (k <= n)%nat /\
    calls (snd (OrderManager._wait_for_fill api id n st)) = calls st ++ repeat CallOrders k.
Proof.
  induction n as [| n IH]; intros st; simpl.
  - exists 0%nat. rewrite app_nil_r. auto.
  - unfold OrderManager.call_orders. simpl.
    destruct (kite_orders api (kite st)) as [r0 b] eqn:Eo.
    destruct (IH (set_kite b CallOrders (sleep 1000 st))) as (k & Hk & Hc).
    simpl in Hc. rewrite <- app_assoc in Hc. simpl in Hc.
    assert (G : exists k0, (k0 <= S n)%nat /\
       calls (snd (OrderManager._wait_for_fill api id n (set_kite b CallOrders (sleep 1000 st))))
        = calls st ++ repeat CallOrders k0).
    { exists (S k). split; [lia | exact Hc]. }
    assert (G1 : exists k0, (k0 <= S n)%nat /\
       calls (set_kite b CallOrders (sleep 1000 st)) = calls st ++ repeat CallOrders k0).
    { exists 1%nat. split; [lia | reflexivity]. }
    destruct r0 as [rows |]; [| exact G].
    destruct (OrderManager.scan_orders id rows); simpl; auto.
Qed.

Lemma wait_for_fill_unfilled (id : string) (n : nat) :
  forall st, (forall p, ~ fills id p (poll_seq api n (kite st))) ->
    fst (OrderManager._wait_for_fill api id n st) = None.
Proof.
  induction n as [| n IH]; intros st Hn; simpl in *; [reflexivity |].
  unfold OrderManager.call_orders. simpl.
  destruct (kite_orders api (kite st)) as [r0 b] eqn:Eo.
  assert (Hrec : pending id r0 ->
            fst (OrderManager._wait_for_fill api id n
                   (set_kite b CallOrders (sleep 1000 st))) = None).
  { intros Hp. apply IH. simpl. intros p (pre & r & post & E & Hpre & Hr).
    apply (Hn p). exists (r0 :: pre), r, post. simpl. rewrite E.
    repeat split; auto. }
  destruct r0 as [rows |].
  - destruct (OrderManager.scan_orders id rows) as [p | | |] eqn:Es; simpl.
    + exfalso. apply (Hn p). exists [], (Some rows), (poll_seq api n b).
      simpl. repeat split; auto.
    + reflexivity.
    + apply Hrec. right. exact Es.
    + apply Hrec. left. exact Es.
  - apply Hrec. right. reflexivity.
Qed.

(** C1.  Once the LIMIT order is accepted by the broker: if the first terminal
    status seen within the 10 polls is COMPLETE, the operation returns a
    position whose entry is the average fill price and appends that one leg
    to the ledger; if no terminal status is seen in the 10 polls, the LIMIT
    order is cancelled and exactly one MARKET order is sent, polled at most 15
    times; if that MARKET order does not fill either, the operation returns
    [None] and the ledger is unchanged. *)
Theorem place_order_protocol (symbol side : string) (qty : Z) (price : Q)
    (token : option Z) (tag : string) (st : AgentState B) (order_id : string) (b1 : B) :
  kite_place_order api (limit_request symbol side qty price tag) (kite st)
    = (Some order_id, b1) ->
  let out := OrderManager.place_order api symbol side qty price token tag st in
  (forall p, fills order_id p (poll_seq api 10 b1) ->
     exists pos, fst out = Some pos /\ Leg.entry pos = p /\
       Leg.symbol pos = symbol /\ Leg.side pos = side /\ Leg.qty pos = qty /\
       positions (snd out) = positions st ++ [pos]) /\
  (Forall (pending order_id) (poll_seq api 10 b1) ->
     let b2 := snd (kite_cancel_order api order_id (poll_state api 10 b1)) in
     (exists k, (k <= 15)%nat /\
        calls (snd out) =
          calls st
          ++ [CallPlaceOrder (limit_request symbol side qty price tag)]
          ++ repeat CallOrders 10
          ++ [CallCancelOrder order_id;
              CallPlaceOrder (market_request symbol side qty tag)]
          ++ repeat CallOrders k) /\
     (market_unfilled api symbol side qty tag b2 ->
        fst out = None /\ positions (snd out) = positions st)).
Proof.
  intros Hplace out. subst out.
  unfold OrderManager.place_order, OrderManager.call_place_order.
  fold (limit_request symbol side qty price tag). rewrite Hplace.
  set (st1 := add_log _ _ _ _).
  assert (Hk1 : kite st1 = b1) by reflexivity.
  assert (Hp1 : positions st1 = positions st) by reflexivity.
  assert (Hc1 : calls st1 = calls st ++ [CallPlaceOrder (limit_request symbol side qty price tag)])
    by reflexivity.
  destruct (OrderManager._wait_for_fill api order_id 10 st1) as [fp st2] eqn:Ew.
  destruct (wait_for_fill_frame order_id 10 st1) as (_ & Hp2 & _).
  rewrite Ew in Hp2. cbn [snd] in Hp2. rewrite Hp1 in Hp2.
  split.
  - intros p Hf. rewrite <- Hk1 in Hf.
    apply wait_for_fill_filled in Hf. rewrite Ew in Hf. simpl in Hf. subst fp.
    eexists. simpl. repeat split. rewrite Hp2. reflexivity.
  - intros Hpend. rewrite <- Hk1 in Hpend.
    apply wait_for_fill_pending in Hpend. cbv zeta in Hpend.
    rewrite Ew in Hpend. cbn [fst snd] in Hpend.
    destruct Hpend as (Hfp & Hk2 & Hc2). subst fp.
    unfold OrderManager.call_cancel_order.
    destruct (kite_cancel_order api order_id (kite st2)) as [rc bc] eqn:Ec.
    assert (Hb2 : snd (kite_cancel_order api order_id (poll_state api 10 b1)) = bc).
    { rewrite <- Hk1, <- Hk2, Ec. reflexivity. }
    unfold OrderManager._place_market, OrderManager.call_place_order.
    fold (market_request symbol side qty tag).
    cbn [kite set_kite].
    unfold market_unfilled. rewrite Hb2.
    destruct (kite_place_order api (market_request symbol side qty tag) bc)
      as [[mid |] bm] eqn:Em.
    + set (st4 := set_kite bm _ _).
      destruct (wait_for_fill_calls mid 15 st4) as (k & Hk & Hcalls).
      destruct (wait_for_fill_frame mid 15 st4) as (_ & Hp4 & _).
      destruct (OrderManager._wait_for_fill api mid 15 st4) as [fp st5] eqn:Ew5.
      simpl in Hcalls, Hp4.
      split.
      * exists k. split; [exact Hk |].
        assert (Hc5 : calls st5 = calls st
          ++ [CallPlaceOrder (limit_request symbol side qty price tag)]
          ++ repeat CallOrders 10
          ++ [CallCancelOrder order_id;
              CallPlaceOrder (market_request symbol side qty tag)]
          ++ repeat CallOrders k).
        { rewrite Hcalls. subst st4. cbn [calls set_kite]. rewrite Hc2, Hc1.
          rewrite <- !app_assoc. reflexivity. }
        destruct fp; simpl; exact Hc5.
      * intros Hun.
        assert (Hnone : fst (OrderManager._wait_for_fill api mid 15 st4) = None).
        { apply wait_for_fill_unfilled. exact Hun. }
        rewrite Ew5 in Hnone. simpl in Hnone. subst fp. simpl.
        split; [reflexivity |]. rewrite Hp4. subst st4. simpl.
        exact Hp2.
    + split.
      * exists 0%nat. split; [lia |]. simpl. rewrite Hc2, Hc1.
        rewrite <- !app_assoc. reflexivity.
      * intros _. simpl. split; [reflexivity |]. exact Hp2.
Qed.

Lemma place_market_frame (symbol : string) (txn : Txn) (qty : Z) (tag : string)
    (st : AgentState B) :
  let st' := snd (OrderManager._place_market api symbol txn qty tag st) in
  executor_frame st st' /\ positions st' = positions st.
Proof.
  unfold OrderManager._place_market, OrderManager.call_place_order.
  destruct (kite_place_order api _ (kite st)) as [[mid |] b]; cbv zeta.
  - match goal with |- context [OrderManager._wait_for_fill api mid 15 ?s] =>
      destruct (wait_for_fill_frame mid 15 s) as (H1 & H2 & _);
      assert (Hs : executor_frame st s) by (split; reflexivity)
    end.
    split; [eapply executor_frame_trans; [exact Hs | exact H1] | exact H2].
  - split; [split |]; reflexivity.
Qed.

Lemma place_order_frame (symbol side : string) (qty : Z) (price : Q)
    (token : option Z) (tag : string) (st : AgentState B) :
  let out := OrderManager.place_order api symbol side qty price token tag st in
  executor_frame st (snd out) /\
  match fst out with
  | Some pos => positions (snd out) = positions st ++ [pos]
  | None => positions (snd out) = positions st
  end.
Proof.
  unfold OrderManager.place_order, OrderManager.call_place_order.
  destruct (kite_place_order api _ (kite st)) as [[oid |] b]; cbv zeta.
  2: { split; [split |]; reflexivity. }
  set (st1 := add_log _ _ _ _).
  assert (H1 : executor_frame st st1 /\ positions st1 = positions st)
    by (split; [split |]; reflexivity).
  destruct (wait_for_fill_frame oid 10 st1) as (H2 & H3 & _).
  destruct (OrderManager._wait_for_fill api oid 10 st1) as [fp st2].
  cbn [snd] in H2, H3.
  assert (H12 : executor_frame st st2 /\ positions st2 = positions st).
  { destruct H1 as [Ha Hb]. split; [apply (executor_frame_trans _ st1); assumption | congruence]. }
  clear H1 H2 H3. destruct H12 as [H1 H2].
  destruct fp as [p |].
  - cbn. split; [| rewrite H2; reflexivity].
    destruct H1 as [Ha Hb]. split; [exact Ha | exact Hb].
  - unfold OrderManager.call_cancel_order.
    destruct (kite_cancel_order api oid (kite st2)) as [rc bc].
    set (st3 := set_kite bc _ st2).
    assert (H3 : executor_frame st st3 /\ positions st3 = positions st).
    { destruct H1 as [Ha Hb]. split; [split; [exact Ha | exact Hb] | exact H2]. }
    destruct (place_market_frame symbol
                (if (side =? "buy")%string then TRANSACTION_TYPE_BUY
                 else TRANSACTION_TYPE_SELL) qty tag st3) as (H4 & H5).
    destruct (OrderManager._place_market api symbol _ qty tag st3) as [fp st4].
    cbn [snd] in H4, H5.
    destruct H3 as [H3 H3'].
    assert (H6 : executor_frame st st4) by (apply (executor_frame_trans _ st3); assumption).
    destruct H6 as [Ha Hb].
    destruct fp as [p |]; cbn.
    + split; [split; [exact Ha | exact Hb] | congruence].
    + split; [split; [exact Ha | exact Hb] | congruence].
Qed.

Lemma option_Z_eqb_refl (a : option Z) : option_Z_eqb a a = true.
Proof. destruct a; simpl; [apply Z.eqb_refl | reflexivity]. Qed.

Lemma Leg_eqb_refl (p : Leg.t) : Leg.eqb p p = true.
Proof.
  unfold Leg.eqb.
  rewrite !String.eqb_refl, !Z.eqb_refl, !Qeq_bool_refl, option_Z_eqb_refl.
  reflexivity.
Qed.

Lemma remove_first_absent (pos : Leg.t) (l : list Leg.t) :
  existsb (fun p => Leg.eqb p pos) l = false ->
  OrderManager.remove_first pos l = l.
Proof.
  induction l as [| p l IH]; simpl; [reflexivity |].
  destruct (Leg.eqb p pos); simpl; [discriminate |].
  intros H. rewrite IH by exact H. reflexivity.
Qed.

Lemma remove_first_split (pos : Leg.t) (l : list Leg.t) :
  In pos l ->
  exists pre p post,
    l = pre ++ p :: post /\ Leg.eqb p pos = true /\
    Forall (fun q => Leg.eqb q pos = false) pre /\
    OrderManager.remove_first pos l = pre ++ post.
Proof.
  induction l as [| q l IH]; simpl; [contradiction |].
  intros Hin.
  destruct (Leg.eqb q pos) eqn:E.
  - exists [], q, l. repeat split; auto.
  - destruct Hin as [-> | Hin]; [rewrite Leg_eqb_refl in E; discriminate |].
    destruct (IH Hin) as (pre & p & post & -> & Hp & Hpre & Hr).
    exists (q :: pre), p, post. simpl. rewrite Hr. repeat split; auto.
Qed.

Lemma remove_first_incl (pos : Leg.t) (l : list Leg.t) (q : Leg.t) :
  In q (OrderManager.remove_first pos l) -> In q l.
Proof.
  induction l as [| p l IH]; simpl; [auto |].
  destruct (Leg.eqb p pos); simpl; intuition.
Qed.

Lemma close_position_spec (pos : Leg.t) (st : AgentState B) :
  let st' := OrderManager.close_position api pos st in
  executor_frame st st' /\
  calls st' = calls st ++ [CallPlaceOrder (OrderManager.close_request pos)] /\
  kite st' = snd (kite_place_order api (OrderManager.close_request pos) (kite st)) /\
  positions st' =
    match fst (kite_place_order api (OrderManager.close_request pos) (kite st)) with
    | Some _ => OrderManager.remove_first pos (positions st)
    | None => positions st
    end.
Proof.
  unfold OrderManager.close_position, OrderManager.call_place_order.
  destruct (kite_place_order api _ (kite st)) as [[oid |] b]; cbv zeta; cbn [fst snd].
  - set (st1 := add_log _ _ _ _).
    change (positions st1) with (positions st).
    destruct (existsb _ (positions st)) eqn:E.
    + repeat split.
    + rewrite remove_first_absent by exact E. repeat split.
  - repeat split.
Qed.

(** C7.  [close_position] sends one broker call and nothing else, hence no
    poll for a fill: a MARKET order on the leg's symbol for the leg's full
    quantity, SELL for a leg bought and BUY for a leg sold.  When the broker
    accepts the order, the first ledger entry equal to the leg, and nothing
    else, is removed; when the broker call raises, the ledger is unchanged. *)
Theorem close_position_protocol (pos : Leg.t) (st : AgentState B) :
  let req := OrderManager.close_request pos in
  let st' := OrderManager.close_position api pos st in
  calls st' = calls st ++ [CallPlaceOrder req] /\
  order_type req = ORDER_TYPE_MARKET /\
  tradingsymbol req = Leg.symbol pos /\
  quantity req = Leg.qty pos /\
  (Leg.side pos = "buy" -> transaction_type req = TRANSACTION_TYPE_SELL) /\
  (Leg.side pos = "sell" -> transaction_type req = TRANSACTION_TYPE_BUY) /\
  (forall order_id b,
     kite_place_order api req (kite st) = (Some order_id, b) ->
     In pos (positions st) ->
     exists pre p post,
       positions st = pre ++ p :: post /\ Leg.eqb p pos = true /\
       Forall (fun q => Leg.eqb q pos = false) pre /\
       positions st' = pre ++ post) /\
  (forall b,
     kite_place_order api req (kite st) = (None, b) ->
     positions st' = positions st).
Proof.
  intros req st'.
  destruct (close_position_spec pos st) as (_ & Hc & _ & Hp).
  fold req st' in Hc, Hp.
  split; [exact Hc |].
  split; [reflexivity |]. split; [reflexivity |]. split; [reflexivity |].
  split; [| split; [| split]].
  - intros Hs. unfold req, OrderManager.close_request. rewrite Hs. reflexivity.
  - intros Hs. unfold req, OrderManager.close_request. rewrite Hs. reflexivity.
  - intros oid b Hk Hin. rewrite Hk in Hp. cbn [fst] in Hp.
    destruct (remove_first_split pos (positions st) Hin)
      as (pre & p & post & E & Hpe & Hpre & Hr).
    exists pre, p, post. rewrite Hp, Hr. auto.
  - intros b Hk. rewrite Hk in Hp. exact Hp.
Qed.

End OrderFacts.

Lemma pending_not_fills (order_id : string) (polls : list (option (list OrderRow))) :
  Forall (pending order_id) polls -> forall p, ~ fills order_id p polls.
Proof.
  intros Hall p (pre & r & post & E & _ & Hr).
  rewrite Forall_forall in Hall.
  assert (Hin : In r polls) by (rewrite E; apply in_or_app; right; left; reflexivity).
  destruct (Hall r Hin) as [H | H]; rewrite H in Hr; discriminate.
Qed.

Lemma place_order_protocol_witness :
  (exists pos,
     fst (OrderManager.place_order (Paper.slow_kite true 3) "NIFTY28NOV2422200CE"
            "sell" 50 100 None "A_SHORT" Paper.state0) = Some pos /\
     Leg.entry pos = 101.5%Q /\
     positions (snd (OrderManager.place_order (Paper.slow_kite true 3)
                       "NIFTY28NOV2422200CE" "sell" 50 100 None "A_SHORT"
                       Paper.state0)) = [pos]) /\
  fst (OrderManager.place_order (Paper.slow_kite true 100) "NIFTY28NOV2422200CE"
         "sell" 50 100 None "A_SHORT" Paper.state0) = None /\
  positions (snd (OrderManager.place_order (Paper.slow_kite true 100)
                    "NIFTY28NOV2422200CE" "sell" 50 100 None "A_SHORT"
                    Paper.state0)) = [].
Proof.
  split.
  - destruct (place_order_protocol (Paper.slow_kite true 3) "NIFTY28NOV2422200CE"
                "sell" 50 100 None "A_SHORT" Paper.state0 "1" 0%nat eq_refl)
      as [Hfill _].
    destruct (Hfill 101.5%Q) as (pos & H1 & H2 & _ & _ & _ & H3).
    + exists (firstn 3 (poll_seq (Paper.slow_kite true 3) 10 0%nat)),
             (Some [mkOrderRow "1" "COMPLETE" (Some 101.5%Q)]),
             (skipn 4 (poll_seq (Paper.slow_kite true 3) 10 0%nat)).
      split; [reflexivity |].
      split; [| reflexivity].
      simpl. repeat constructor.
    + exists pos. auto.
  - destruct (place_order_protocol (Paper.slow_kite true 100) "NIFTY28NOV2422200CE"
                "sell" 50 100 None "A_SHORT" Paper.state0 "1" 0%nat eq_refl)
      as [_ Hpend].
    assert (Hp : Forall (pending "1") (poll_seq (Paper.slow_kite true 100) 10 0%nat))
      by (simpl; repeat constructor).
    destruct (Hpend Hp) as [_ Hnone].
    apply Hnone.
    unfold market_unfilled. simpl.
    apply pending_not_fills. repeat constructor.
Defined.

Lemma close_position_protocol_witness :
  calls (OrderManager.close_position (Paper.slow_kite true 3) Paper.leg0
           (set_positions [Paper.leg0] Paper.state0))
  = [CallPlaceOrder
       (mkOrderRequest "NIFTY28NOV2422200CE" TRANSACTION_TYPE_BUY 50
          ORDER_TYPE_MARKET None "GEKKO_CLOSE")] /\
  positions (OrderManager.close_position (Paper.slow_kite true 3) Paper.leg0
               (set_positions [Paper.leg0] Paper.state0)) = [] /\
  positions (OrderManager.close_position (Paper.slow_kite false 3) Paper.leg0
               (set_positions [Paper.leg0] Paper.state0)) = [Paper.leg0].
Proof.
  split; [| split].
  - apply (close_position_protocol (Paper.slow_kite true 3) Paper.leg0
             (set_positions [Paper.leg0] Paper.state0)).
  - destruct (close_position_protocol (Paper.slow_kite true 3) Paper.leg0
                (set_positions [Paper.leg0] Paper.state0))
      as (_ & _ & _ & _ & _ & Hbuy & Hacc & _).
    assert (Hb := Hbuy eq_refl).
    destruct (Hacc "1" 0%nat eq_refl (or_introl eq_refl))
      as (pre & p & post & E & _ & _ & Hr).
    rewrite Hr.
    destruct pre as [| x pre]; simpl in E.
    + injection E as _ E. rewrite <- E. reflexivity.
    + injection E as _ E. destruct pre; discriminate.
  - destruct (close_position_protocol (Paper.slow_kite false 3) Paper.leg0
                (set_positions [Paper.leg0] Paper.state0))
      as (_ & _ & _ & _ & _ & _ & _ & Hrej).
    apply (Hrej 0%nat eq_refl).
Defined.

(** ** The strategy engine *)

Section StrategyFacts.
Context {B : Type} (api : Kite B) (lib : Lib).

Lemma close_fold_spec (l : list Leg.t) :
  forall st : AgentState B,
    let st' := fold_left (fun st pos => OrderManager.close_position api pos st) l st in
    executor_frame st st' /\
    calls st' = calls st ++ map close_call l /\
    (forall q, In q (positions st') -> In q (positions st)).
Proof.
  induction l as [| p l IH]; intros st; simpl.
  - rewrite app_nil_r. auto using executor_frame_refl.
  - destruct (close_position_spec api p st) as (Hf & Hc & _ & Hp).
    destruct (IH (OrderManager.close_position api p st)) as (Hf' & Hc' & Hp').
    split; [eapply executor_frame_trans; [exact Hf | exact Hf'] |].
    split.
    + rewrite Hc', Hc, <- app_assoc. reflexivity.
    + intros q Hq. apply Hp' in Hq. rewrite Hp in Hq.
      destruct (fst (kite_place_order api _ (kite st))); [| exact Hq].
      eapply remove_first_incl. exact Hq.
Qed.

Lemma close_fold_accepting (l : list Leg.t) :
  accepts_orders api ->
  forall (st : AgentState B) (rest : list Leg.t),
    positions st = l ++ rest ->
    positions (fold_left (fun st pos => OrderManager.close_position api pos st) l st)
    = rest.
Proof.
  intros Hacc. induction l as [| p l IH]; intros st rest E; simpl.
  - exact E.
  - apply IH.
    destruct (close_position_spec api p st) as (_ & _ & _ & Hp).
    rewrite Hp.
    destruct (fst (kite_place_order api (OrderManager.close_request p) (kite st)))
      eqn:Ek; [| exfalso; exact (Hacc _ _ Ek)].
    rewrite E. simpl. rewrite Leg_eqb_refl. reflexivity.
Qed.

Lemma close_all_positions_spec (st : AgentState B) :
  let st' := OrderManager.close_all_positions api st in
  executor_frame st st' /\
  calls st' = calls st ++ map close_call (positions st) /\
  (forall q, In q (positions st') -> In q (positions st)) /\
  (accepts_orders api -> positions st' = []).
Proof.
  unfold OrderManager.close_all_positions. cbv zeta.
  destruct (close_fold_spec (positions st) st) as (Hf & Hc & Hp).
  set (st1 := fold_left _ (positions st) st) in *.
  split; [destruct Hf as [Ha Hb]; split; [exact Ha | exact Hb] |].
  split; [exact Hc |].
  split; [exact Hp |].
  intros Hacc. change (positions st1 = []).
  apply (close_fold_accepting (positions st) Hacc st []).
  rewrite app_nil_r. reflexivity.
Qed.

Lemma rescanned_refl (st : AgentState B) : rescanned st st.
Proof.
  split; [reflexivity |]. split; [reflexivity |].
  exists []. rewrite app_nil_r. split; [reflexivity | constructor].
Qed.

Lemma rescanned_trans (st1 st2 st3 : AgentState B) :
  rescanned st1 st2 -> rescanned st2 st3 -> rescanned st1 st3.
Proof.
  intros (H1 & H2 & d & H3 & H4) (H5 & H6 & e & H7 & H8).
  split; [congruence |]. split; [congruence |].
  exists (d ++ e). split.
  - rewrite H7, H3, app_assoc. reflexivity.
  - apply Forall_app. split; assumption.
Qed.

Lemma rescanned_lookup (b : B) (c : Call) (st : AgentState B) :
  lookup_only [c] -> rescanned st (set_kite b c st).
Proof.
  intros Hc. split; [reflexivity |]. split; [reflexivity |].
  exists [c]. split; [reflexivity | exact Hc].
Qed.

Lemma scan_contract_rescanned (expiry : string) (T threshold : Q)
    (chain : list Opt.t) (st : AgentState B) (strike : Z) (opt_type : string) :
  rescanned st
    (snd (OptionScanner.scan_contract api lib expiry T threshold (chain, st)
            strike opt_type)).
Proof.
  unfold OptionScanner.scan_contract, OrderManager.call_quote,
    OrderManager.call_instruments.
  destruct (kite_quote api _ (kite st)) as [q b1].
  set (st1 := set_kite b1 _ st).
  assert (H1 : rescanned st st1)
    by (apply rescanned_lookup; repeat constructor).
  destruct q as [q |]; [| exact H1].
  destruct (Qlt_bool _ 3); [exact H1 |].
  destruct (full_greeks lib _ _ _ _ _ _) as [g |]; [| exact H1].
  destruct (kite_instruments api "NFO" (kite st1)) as [inst b2].
  set (st2 := set_kite b2 _ st1).
  assert (H2 : rescanned st st2).
  { apply (rescanned_trans _ st1); [exact H1 |].
    apply rescanned_lookup. repeat constructor. }
  destruct inst; exact H2.
Qed.

Lemma scan_fold_rescanned (expiry : string) (T threshold : Q) (ks : list Z) :
  forall (chain : list Opt.t) (st : AgentState B),
    rescanned st
      (snd (fold_left
              (fun acc strike =>
                 fold_left
                   (fun acc opt_type =>
                      OptionScanner.scan_contract api lib expiry T threshold acc
                        strike opt_type)
                   ["CE"; "PE"] acc)
              ks (chain, st))).
Proof.
  induction ks as [| k ks IH]; intros chain st; cbn [fold_left].
  - apply rescanned_refl.
  - destruct (OptionScanner.scan_contract api lib expiry T threshold (chain, st) k "CE")
      as [c1 s1] eqn:E1.
    destruct (OptionScanner.scan_contract api lib expiry T threshold (c1, s1) k "PE")
      as [c2 s2] eqn:E2.
    apply (rescanned_trans _ s2); [| apply IH].
    apply (rescanned_trans _ s1).
    + generalize (scan_contract_rescanned expiry T threshold chain st k "CE").
      rewrite E1. auto.
    + generalize (scan_contract_rescanned expiry T threshold c1 s1 k "PE").
      rewrite E2. auto.
Qed.

Lemma fetch_rescanned (st : AgentState B) :
  rescanned st (snd (OptionScanner.fetch_and_update_chain api lib st)).
Proof.
  unfold OptionScanner.fetch_and_update_chain. cbv zeta.
  generalize (scan_fold_rescanned (OptionScanner.get_expiry lib st)
                (OptionScanner.time_to_expiry lib (OptionScanner.get_expiry lib st) st)
                (iv_mismatch_threshold (config st))
                (OptionScanner.strikes (spot st)) [] st).
  destruct (fold_left _ (OptionScanner.strikes (spot st)) ([], st)) as [chain st1].
  cbn [snd]. intros (H1 & H2 & d & H3 & H4).
  split; [exact H1 |]. split; [exact H2 |]. exists d. split; [exact H3 | exact H4].
Qed.


Lemma exit_flattens (st st1 : AgentState B) (msg : Msg) (type_ : string) :
  rescanned st st1 ->
  flattened api st
    (set_roll_count 0
       (set_active_strategy None
          (OrderManager.close_all_positions api (add_log "GEKKO" msg type_ st1)))).
Proof.
  intros (_ & Hp & d & Hc & Hd).
  destruct (close_all_positions_spec (add_log "GEKKO" msg type_ st1))
    as (_ & Hc2 & Hp2 & Hacc).
  change (positions (add_log "GEKKO" msg type_ st1)) with (positions st1) in *.
  change (calls (add_log "GEKKO" msg type_ st1)) with (calls st1) in *.
  set (st2 := OrderManager.close_all_positions api _) in *.
  split; [reflexivity |]. split; [reflexivity |].
  split; [| split].
  - exists d. split; [exact Hd |].
    change (calls (set_roll_count 0 (set_active_strategy None st2))) with (calls st2).
    rewrite Hc2, Hc, Hp, <- app_assoc. reflexivity.
  - intros q Hq. rewrite <- Hp. apply Hp2. exact Hq.
  - intros Ha. apply Hacc. exact Ha.
Qed.

Lemma tick_refresh_rescanned (n : Z) (st : AgentState B) :
  rescanned st
    (if (n mod 60 =? 0)%Z
     then snd (OptionScanner.fetch_and_update_chain api lib st) else st).
Proof.
  destruct (n mod 60 =? 0)%Z; [apply fetch_rescanned | apply rescanned_refl].
Qed.


Lemma frame_budget (st st' : AgentState B) :
  executor_frame st st' ->
  config st' = config st /\ roll_count st' = roll_count st.
Proof.
  intros [H _]. unfold static in H. injection H as H1 _ H2 _ _ _ _. auto.
Qed.

Lemma rescanned_budget (st st' : AgentState B) :
  rescanned st st' ->
  config st' = config st /\ roll_count st' = roll_count st.
Proof.
  intros [H _]. unfold static in H. injection H as H1 _ H2 _ _ _ _. auto.
Qed.

Lemma frame_add_log (msg : Msg) (type_ : string) (st : AgentState B) :
  executor_frame st (add_log "GEKKO" msg type_ st).
Proof. split; reflexivity. Qed.

Lemma frame_call_quote (key : string) (st : AgentState B) :
  executor_frame st (snd (OrderManager.call_quote api key st)).
Proof.
  unfold OrderManager.call_quote.
  destruct (kite_quote api key (kite st)). split; reflexivity.
Qed.

Lemma frame_place_order (symbol side : string) (qty : Z) (price : Q)
    (token : option Z) (tag : string) (st : AgentState B) :
  executor_frame st
    (snd (OrderManager.place_order api symbol side qty price token tag st)).
Proof. apply (place_order_frame api). Qed.

Lemma frame_close_position (pos : Leg.t) (st : AgentState B) :
  executor_frame st (OrderManager.close_position api pos st).
Proof. apply (close_position_spec api). Qed.

Lemma enter_A_frame (chain : list Opt.t) (a : StrategyA.t) (st : AgentState B) :
  executor_frame st (snd (StrategyA._enter api chain a st)).
Proof.
  unfold StrategyA._enter. cbv zeta.
  destruct (filter _ chain) as [| sell_opt rest]; [apply executor_frame_refl |].
  set (st1 := add_log _ _ _ st).
  assert (H1 : executor_frame st st1) by apply frame_add_log.
  assert (H2 := frame_call_quote
                  ("NFO:" ++ "NIFTY" ++ Opt.expiry sell_opt
                   ++ string_of_Z
                        (if (Opt.type sell_opt =? "CE")%string
                         then (Opt.strike sell_opt + OptionScanner.hedge_pts st)%Z
                         else (Opt.strike sell_opt - OptionScanner.hedge_pts st)%Z)
                   ++ Opt.type sell_opt) st1).
  destruct (OrderManager.call_quote api _ st1) as [hq st2]. cbn [snd] in H2.
  set (st3 := add_log _ _ _ st2).
  assert (H3 : executor_frame st st3).
  { apply (executor_frame_trans st st1); [exact H1 |].
    apply (executor_frame_trans st1 st2); [exact H2 | apply frame_add_log]. }
  match goal with
  | |- context [OrderManager.place_order api ?s ?d ?q ?p ?t ?g st3] =>
      assert (H4 := frame_place_order s d q p t g st3);
      destruct (OrderManager.place_order api s d q p t g st3) as [sell_pos st4]
  end.
  cbn [snd] in H4.
  match goal with
  | |- context [OrderManager.place_order api ?s ?d ?q ?p ?t ?g st4] =>
      assert (H5 := frame_place_order s d q p t g st4);
      destruct (OrderManager.place_order api s d q p t g st4) as [hedge_pos st5]
  end.
  cbn [snd] in H5.
  assert (H6 : executor_frame st st5).
  { apply (executor_frame_trans st st3); [exact H3 |].
    apply (executor_frame_trans st3 st4); assumption. }
  destruct sell_pos, hedge_pos; exact H6.
Qed.

Ltac step_quote H st' :=
  match goal with
  | |- context [OrderManager.call_quote api ?k ?s] =>
      let q := fresh "q" in
      assert (H := frame_call_quote k s);
      destruct (OrderManager.call_quote api k s) as [q st'];
      cbn [snd] in H
  end.

Ltac step_place H st' :=
  match goal with
  | |- context [OrderManager.place_order api ?s ?d ?q ?p ?t ?g ?st0] =>
      let r := fresh "pos" in
      assert (H := frame_place_order s d q p t g st0);
      destruct (OrderManager.place_order api s d q p t g st0) as [r st'];
      cbn [snd] in H
  end.

Lemma roll_A_frame (current : Opt.t) (a : StrategyA.t) (st : AgentState B) :
  executor_frame (set_roll_count (roll_count st + 1) st)
    (snd (StrategyA._roll api current a st)).
Proof.
  unfold StrategyA._roll. cbv zeta.
  set (st0 := set_roll_count (roll_count st + 1) st).
  set (st1 := add_log _ _ _ st0).
  assert (H1 : executor_frame st0 st1) by apply frame_add_log.
  set (st2 := match find _ (positions st1) with
              | Some short_pos => OrderManager.close_position api short_pos st1
              | None => st1
              end).
  assert (H2 : executor_frame st0 st2).
  { subst st2. destruct (find _ (positions st1)) as [sp |]; [| exact H1].
    apply (executor_frame_trans st0 st1); [exact H1 | apply frame_close_position]. }
  clearbody st2. clear H1. clearbody st1.
  step_quote H3 st3.
  assert (H4 : executor_frame st0 st3)
    by (apply (executor_frame_trans st0 st2); assumption).
  destruct q as [q |]; [| exact H4].
  step_place H5 st4.
  assert (H6 : executor_frame st0 st4)
    by (apply (executor_frame_trans st0 st3); assumption).
  destruct pos; exact H6.
Qed.

Lemma roll_A_count (current : Opt.t) (a : StrategyA.t) (st : AgentState B) :
  roll_count (snd (StrategyA._roll api current a st)) = (roll_count st + 1)%Z /\
  config (snd (StrategyA._roll api current a st)) = config st /\
  active_strategy (snd (StrategyA._roll api current a st)) = active_strategy st.
Proof.
  destruct (roll_A_frame current a st) as [H _].
  unfold static in H. injection H as H1 _ H2 H3 _ _ _. auto.
Qed.

Lemma adjust_wing_frame (current : Opt.t) (opt_type : string) (b : StrategyB.t)
    (st : AgentState B) :
  executor_frame (set_roll_count (roll_count st + 1) st)
    (snd (StrategyB._adjust_wing api current opt_type b st)).
Proof.
  unfold StrategyB._adjust_wing. cbv zeta.
  set (st0 := set_roll_count (roll_count st + 1) st).
  set (st1 := add_log _ _ _ st0).
  assert (H1 : executor_frame st0 st1) by apply frame_add_log.
  set (st2 := match find _ (positions st1) with
              | Some pos => OrderManager.close_position api pos st1
              | None => st1
              end).
  assert (H2 : executor_frame st0 st2).
  { subst st2. destruct (find _ (positions st1)) as [sp |]; [| exact H1].
    apply (executor_frame_trans st0 st1); [exact H1 | apply frame_close_position]. }
  clearbody st2. clear H1. clearbody st1.
  step_quote H3 st3.
  assert (H4 : executor_frame st0 st3)
    by (apply (executor_frame_trans st0 st2); assumption).
  destruct q as [[[ltp |] oi] |]; try exact H4.
  step_place H5 st4.
  assert (H6 : executor_frame st0 st4)
    by (apply (executor_frame_trans st0 st3); assumption).
  destruct pos; [destruct (opt_type =? "CE")%string |]; exact H6.
Qed.

Lemma adjust_wing_count (current : Opt.t) (opt_type : string) (b : StrategyB.t)
    (st : AgentState B) :
  roll_count (snd (StrategyB._adjust_wing api current opt_type b st))
  = (roll_count st + 1)%Z /\
  config (snd (StrategyB._adjust_wing api current opt_type b st)) = config st.
Proof.
  destruct (adjust_wing_frame current opt_type b st) as [H _].
  unfold static in H. injection H as H1 _ H2 _ _ _ _. auto.
Qed.

Lemma place_leg_frame (st : AgentState B) (leg : string * string * Q * string) :
  executor_frame st (StrategyB.place_leg api st leg).
Proof.
  unfold StrategyB.place_leg. destruct leg as [[[sym side] ltp] tag].
  step_place H st1.
  destruct H as [Ha Hb]. split; [exact Ha | exact Hb].
Qed.

Lemma enter_B_frame (chain : list Opt.t) (b : StrategyB.t) (st : AgentState B) :
  executor_frame st (snd (StrategyB._enter api chain b st)).
Proof.
  unfold StrategyB._enter. cbv zeta.
  destruct (filter _ chain) as [| sc ce_rest]; [apply frame_add_log |].
  destruct (filter _ chain) as [| sp pe_rest]; [apply frame_add_log |].
  step_quote H1 st1.
  set (quotes := match q with
                 | Some {| last_price := Some lc_ltp |} => _
                 | _ => _
                 end).
  assert (H2 : executor_frame st (snd quotes)).
  { subst quotes. destruct q as [[[lc |] oi] |]; try exact H1.
    step_quote H2 st2.
    assert (H3 : executor_frame st st2)
      by (apply (executor_frame_trans st st1); assumption).
    destruct q as [[[lp |] oi2] |]; exact H3. }
  destruct quotes as [[lc_ltp lp_ltp] st3]. cbn [snd] in H2.
  cbn [fst snd fold_left].
  set (st4 := add_log _ _ _ st3).
  repeat (eapply executor_frame_trans; [| apply place_leg_frame]).
  apply (executor_frame_trans st st3); [exact H2 | apply frame_add_log].
Qed.

Lemma exit_config (st1 : AgentState B) (msg : Msg) (type_ : string) :
  config (OrderManager.close_all_positions api (add_log "GEKKO" msg type_ st1))
  = config st1.
Proof.
  destruct (close_all_positions_spec (add_log "GEKKO" msg type_ st1)) as (Hf & _).
  apply frame_budget in Hf. destruct Hf as [Hc _]. exact Hc.
Qed.

(** What [_monitor_positions] can do to the roll counter: one roll, allowed by
    the budget; nothing at all; or the decay exit, which flattens. *)
Lemma monitor_A_cases (a : StrategyA.t) (st : AgentState B) :
  let out := StrategyA._monitor_positions api a st in
  config (snd out) = config st /\
  ((roll_count (snd out) = (roll_count st + 1)%Z /\
    (roll_count st < max_rolls (config st))%Z /\
    active_strategy (snd out) = active_strategy st)
   \/ out = (a, st)
   \/ (flattened api st (snd out) /\ StrategyA.entered (fst out) = false)).
Proof.
  unfold StrategyA._monitor_positions. cbv zeta.
  destruct (StrategyA.short_leg a) as [short |]; [| auto].
  destruct (find _ (option_chain st)) as [current |]; [| auto].
  destruct (Qle_bool (decay_trigger_pct (config st)) _).
  - unfold StrategyA._reset. cbn [fst snd].
    split; [apply exit_config |].
    right. right. split; [| reflexivity].
    apply exit_flattens. apply rescanned_refl.
  - destruct (Qlt_bool _ _ && (roll_count st <? max_rolls (config st))%Z) eqn:E;
      [| auto].
    apply andb_prop in E. destruct E as [_ E]. apply Z.ltb_lt in E.
    destruct (roll_A_count current a st) as (H1 & H2 & H3).
    split; [exact H2 |]. left. auto.
Qed.

Lemma monitor_leg_cases (short : option Opt.t) (opt_type : string)
    (b : StrategyB.t) (st : AgentState B) :
  let out := StrategyB.monitor_leg api short opt_type b st in
  config (snd out) = config st /\
  (out = (b, st)
   \/ (roll_count (snd out) = (roll_count st + 1)%Z /\
       (roll_count st < max_rolls (config st))%Z)).
Proof.
  unfold StrategyB.monitor_leg. cbv zeta.
  destruct short as [short |]; [| auto].
  destruct (find _ (option_chain st)) as [current |]; [| auto].
  destruct (Qlt_bool _ _); [| auto].
  destruct (roll_count st <? max_rolls (config st))%Z eqn:E; [| auto].
  apply Z.ltb_lt in E.
  destruct (adjust_wing_count current opt_type b st) as (H1 & H2).
  split; [exact H2 |]. right. auto.
Qed.

Lemma monitor_B_cases (b : StrategyB.t) (st : AgentState B) :
  let out := StrategyB._monitor api b st in
  config (snd out) = config st /\
  (roll_count st <= roll_count (snd out) <= roll_count st + 2)%Z /\
  ((roll_count st < roll_count (snd out))%Z ->
   (roll_count st < max_rolls (config st))%Z /\
   (roll_count (snd out) <= max_rolls (config st))%Z) /\
  ((max_rolls (config st) <= roll_count st)%Z -> out = (b, st)).
Proof.
  unfold StrategyB._monitor. cbv zeta.
  destruct (monitor_leg_cases (StrategyB.short_ce b) "CE" b st) as (Hc1 & H1).
  destruct (StrategyB.monitor_leg api (StrategyB.short_ce b) "CE" b st)
    as [b1 st1] eqn:E1.
  cbn [snd] in Hc1, H1.
  destruct (monitor_leg_cases (StrategyB.short_pe b) "PE" b1 st1) as (Hc2 & H2).
  destruct (StrategyB.monitor_leg api (StrategyB.short_pe b) "PE" b1 st1)
    as [b2 st2] eqn:E2.
  cbn [snd] in Hc2, H2 |- *.
  rewrite Hc1 in Hc2, H2.
  split; [exact Hc2 |].
  destruct H1 as [H1 | [H1 H1']]; destruct H2 as [H2 | [H2 H2']];
    try (injection H1 as -> ->); try (injection H2 as -> ->);
    (split; [lia |]); (split; [intros; lia |]); intros Hmax;
    first [reflexivity | exfalso; lia].
Qed.

(** The roll counter across one tick of variant A. *)
Lemma tick_A_budget (a : StrategyA.t) (st : AgentState B) :
  let st' := snd (StrategyA.tick api lib a st) in
  config st' = config st /\
  (roll_count st' = 0%Z \/ roll_count st' = roll_count st \/
   (roll_count st' = (roll_count st + 1)%Z /\
    (roll_count st < max_rolls (config st))%Z)).
Proof.
  unfold StrategyA.tick. cbv zeta. cbn [StrategyA._scan_counter].
  assert (Hr := tick_refresh_rescanned (StrategyA._scan_counter a + 1) st).
  set (st1 := if (_ =? 0)%Z then _ else st) in *.
  destruct (rescanned_budget st st1 Hr) as [Hc Hn]. clearbody st1.
  rewrite <- Hc, <- Hn.
  destruct (target_hit st1).
  { unfold StrategyA._reset. cbn [snd]. split; [apply exit_config | auto]. }
  destruct (sl_hit st1).
  { unfold StrategyA._reset. cbn [snd]. split; [apply exit_config | auto]. }
  cbn [StrategyA.entered StrategyA.short_leg].
  destruct (negb (StrategyA.entered a) && Nat.eqb (List.length (positions st1)) 0).
  - set (fetched := match option_chain st1 with
                    | [] => OptionScanner.fetch_and_update_chain api lib st1
                    | chain => (chain, st1)
                    end).
    assert (Hf : config (snd fetched) = config st1 /\
                 roll_count (snd fetched) = roll_count st1).
    { subst fetched. destruct (option_chain st1); [| auto].
      apply rescanned_budget. apply fetch_rescanned. }
    destruct fetched as [chain st2]. cbn [snd] in Hf.
    match goal with
    | |- context [StrategyA._enter api chain ?s st2] =>
        destruct (frame_budget _ _ (enter_A_frame chain s st2)) as [He1 He2]
    end.
    destruct Hf as [Hf1 Hf2].
    split; [congruence |]. right. left. congruence.
  - destruct (StrategyA.entered a && is_some (StrategyA.short_leg a)); [| auto].
    match goal with
    | |- context [StrategyA._monitor_positions api ?s st1] =>
        destruct (monitor_A_cases s st1) as (Hm1 & Hm2)
    end.
    split; [exact Hm1 |].
    destruct Hm2 as [(H1 & H2 & _) | [H | (H & _)]].
    + right. right. auto.
    + rewrite H. auto.
    + left. apply H.
Qed.

(** The roll counter across one tick of variant B. *)
Lemma tick_B_budget (b : StrategyB.t) (st : AgentState B) :
  let st' := snd (StrategyB.tick api lib b st) in
  config st' = config st /\
  (roll_count st' = 0%Z \/
   ((roll_count st <= roll_count st' <= roll_count st + 2)%Z /\
    ((roll_count st < roll_count st')%Z ->
     (roll_count st' <= max_rolls (config st))%Z))).
Proof.
  unfold StrategyB.tick. cbv zeta. cbn [StrategyB._scan_counter].
  assert (Hr := tick_refresh_rescanned (StrategyB._scan_counter b + 1) st).
  set (st1 := if (_ =? 0)%Z then _ else st) in *.
  destruct (rescanned_budget st st1 Hr) as [Hc Hn]. clearbody st1.
  rewrite <- Hc, <- Hn.
  destruct (target_hit st1).
  { unfold StrategyB._reset. cbn [snd]. split; [apply exit_config | auto]. }
  destruct (sl_hit st1).
  { unfold StrategyB._reset. cbn [snd]. split; [apply exit_config | auto]. }
  cbn [StrategyB.entered].
  destruct (negb (StrategyB.entered b)).
  - destruct (Qle_bool (iv_rank_entry (config st1)) (iv_rank st1)).
    + set (fetched := match option_chain st1 with
                      | [] => OptionScanner.fetch_and_update_chain api lib st1
                      | chain => (chain, st1)
                      end).
      assert (Hf : config (snd fetched) = config st1 /\
                   roll_count (snd fetched) = roll_count st1).
      { subst fetched. destruct (option_chain st1); [| auto].
        apply rescanned_budget. apply fetch_rescanned. }
      destruct fetched as [chain st2]. cbn [snd] in Hf.
      match goal with
      | |- context [StrategyB._enter api chain ?s st2] =>
          destruct (frame_budget _ _ (enter_B_frame chain s st2)) as [He1 He2]
      end.
      destruct Hf as [Hf1 Hf2].
      split; [congruence |]. right. rewrite He2, Hf2. split; lia.
    + destruct (_ =? 0)%Z; cbn [snd]; unfold add_log, set_log; cbn [roll_count config];
        (split; [reflexivity |]); right; split; lia.
  - match goal with
    | |- context [StrategyB._monitor api ?s st1] =>
        destruct (monitor_B_cases s st1) as (Hm1 & Hm2 & Hm3 & _)
    end.
    split; [exact Hm1 |]. right. split; [exact Hm2 |].
    intros H. apply Hm3. exact H.
Qed.

Lemma run_step_budget (app app' : Main.App) :
  run_step api lib app app' ->
  config (snd app') = config (snd app) /\
  ((0 <= max_rolls (config (snd app)))%Z ->
   (roll_count (snd app) <= max_rolls (config (snd app)))%Z ->
   (roll_count (snd app') <= max_rolls (config (snd app)))%Z).
Proof.
  intros Hstep. destruct Hstep as [[[a b] st] | name [[a b] st] | [[a b] st] | a b st st' Hc Hr].
  - unfold Main.strategy_monitor_step.
    set (st1 := sleep 1000 st).
    change (config (snd (a, b, st))) with (config st1).
    change (roll_count (snd (a, b, st))) with (roll_count st1).
    clearbody st1.
    destruct (negb (is_market_hours st1)); [cbn [snd]; auto |].
    destruct (active_strategy st1) as [name |]; [| cbn [snd]; auto].
    destruct (name =? "A")%string.
    + destruct (tick_A_budget a st1) as (H1 & H2).
      destruct (StrategyA.tick api lib a st1) as [a' st2].
      cbn [snd] in *. split; [exact H1 |]. intros. lia.
    + destruct (name =? "B")%string; [| cbn [snd]; auto].
      destruct (tick_B_budget b st1) as (H1 & H2).
      destruct (StrategyB.tick api lib b st1) as [b' st2].
      cbn [snd] in *. split; [exact H1 |]. intros. lia.
  - unfold Main.start_strategy.
    destruct (negb _); [auto |].
    destruct (is_some _); [auto |].
    cbn [snd]. auto.
  - unfold Main.stop_strategy.
    destruct (active_strategy st); [| auto].
    destruct (close_all_positions_spec st) as (Hf & _).
    apply frame_budget in Hf. destruct Hf as [Hc Hr].
    cbn [snd].
    change (config (add_log "GEKKO" MsgStopped "alert"
                      (set_active_strategy None (OrderManager.close_all_positions api st))))
      with (config (OrderManager.close_all_positions api st)).
    change (roll_count (add_log "GEKKO" MsgStopped "alert"
                      (set_active_strategy None (OrderManager.close_all_positions api st))))
      with (roll_count (OrderManager.close_all_positions api st)).
    rewrite Hc, Hr. auto.
  - cbn [snd]. rewrite Hr. auto.
Qed.

Lemma run_budget (app app' : Main.App) :
  run api lib app app' ->
  (0 <= max_rolls (config (snd app)))%Z ->
  (roll_count (snd app) <= max_rolls (config (snd app)))%Z ->
  config (snd app') = config (snd app) /\
  (roll_count (snd app') <= max_rolls (config (snd app)))%Z.
Proof.
  intros Hrun H0 Hle. induction Hrun as [app | app1 app2 app3 Hrun IH Hstep].
  - auto.
  - destruct (IH H0 Hle) as [Hc Hr].
    destruct (run_step_budget app2 app3 Hstep) as [Hc' Hr'].
    rewrite Hc in Hc', Hr'. split; [exact Hc' |]. apply Hr'; assumption.
Qed.

(** C8.  In both variants a roll adds exactly one to the roll counter, and
    monitoring rolls only while the counter is strictly below [max_rolls]:
    variant A either rolls once with budget left, or does nothing, or takes
    its decay exit; variant B rolls at most once per side, each time with
    budget left.  With the counter at the maximum, a delta breach triggers no
    roll.  Along any run of the application that starts with the counter
    within a non-negative maximum, the counter never exceeds [max_rolls]. *)
Theorem roll_budget_bound (a : StrategyA.t) (b : StrategyB.t) (st : AgentState B) :
  (forall current,
     roll_count (snd (StrategyA._roll api current a st))
     = (roll_count st + 1)%Z) /\
  (forall current opt_type,
     roll_count (snd (StrategyB._adjust_wing api current opt_type b st))
     = (roll_count st + 1)%Z) /\
  ((roll_count (snd (StrategyA._monitor_positions api a st)) = (roll_count st + 1)%Z /\
    (roll_count st < max_rolls (config st))%Z)
   \/ StrategyA._monitor_positions api a st = (a, st)
   \/ (flattened api st (snd (StrategyA._monitor_positions api a st)) /\
       StrategyA.entered (fst (StrategyA._monitor_positions api a st)) = false)) /\
  ((roll_count st <= roll_count (snd (StrategyB._monitor api b st))
    <= roll_count st + 2)%Z /\
   ((roll_count st < roll_count (snd (StrategyB._monitor api b st)))%Z ->
    (roll_count st < max_rolls (config st))%Z /\
    (roll_count (snd (StrategyB._monitor api b st)) <= max_rolls (config st))%Z)) /\
  ((max_rolls (config st) <= roll_count st)%Z ->
   (StrategyA._monitor_positions api a st = (a, st)
    \/ (flattened api st (snd (StrategyA._monitor_positions api a st)) /\
        StrategyA.entered (fst (StrategyA._monitor_positions api a st)) = false)) /\
   StrategyB._monitor api b st = (b, st)) /\
  (forall app',
     run api lib (a, b, st) app' ->
     (0 <= max_rolls (config st))%Z ->
     (roll_count st <= max_rolls (config st))%Z ->
     config (snd app') = config st /\
     (roll_count (snd app') <= max_rolls (config st))%Z).
Proof.
  destruct (monitor_A_cases a st) as (_ & HA).
  destruct (monitor_B_cases b st) as (_ & HB1 & HB2 & HB3).
  split; [intros current; apply roll_A_count |].
  split; [intros current opt_type; apply adjust_wing_count |].
  split; [| split; [| split]].
  - destruct HA as [(H1 & H2 & _) | [H | H]]; auto.
  - split; [exact HB1 | exact HB2].
  - intros Hmax. split; [| apply HB3; exact Hmax].
    destruct HA as [(H1 & H2 & _) | [H | H]]; [lia | auto | auto].
  - intros app' Hrun H0 Hle. apply (run_budget _ _ Hrun H0 Hle).
Qed.

Lemma call_quote_positions (key : string) (st : AgentState B) :
  positions (snd (OrderManager.call_quote api key st)) = positions st.
Proof.
  unfold OrderManager.call_quote.
  destruct (kite_quote api key (kite st)). reflexivity.
Qed.

(** Variant A records an entry only when both of its legs are in the ledger. *)
Lemma enter_A_all_or_nothing (chain : list Opt.t) (a : StrategyA.t)
    (st : AgentState B) :
  let out := StrategyA._enter api chain a st in
  fst out = a \/
  exists sell_opt sell_pos hedge_pos,
    fst out = StrategyA.mk true
                (Some (StrategyA.mkShortLeg sell_opt (Leg.entry sell_pos)))
                (Some hedge_pos) (StrategyA._scan_counter a) /\
    positions (snd out) = positions st ++ [sell_pos; hedge_pos].
Proof.
  unfold StrategyA._enter. cbv zeta.
  destruct (filter _ chain) as [| sell_opt rest]; [left; reflexivity |].
  set (st1 := add_log _ _ _ st).
  assert (P1 : positions st1 = positions st) by reflexivity. clearbody st1.
  match goal with
  | |- context [OrderManager.call_quote api ?k st1] =>
      assert (P2 := call_quote_positions k st1);
      destruct (OrderManager.call_quote api k st1) as [hq st2]
  end.
  cbn [snd] in P2. rewrite P1 in P2.
  set (st3 := add_log _ _ _ st2).
  assert (P3 : positions st3 = positions st) by exact P2. clearbody st3.
  match goal with
  | |- context [OrderManager.place_order api ?s ?d ?q ?p ?t ?g st3] =>
      destruct (place_order_frame api s d q p t g st3) as [_ H4];
      destruct (OrderManager.place_order api s d q p t g st3) as [sell_pos st4]
  end.
  cbn [fst snd] in H4.
  match goal with
  | |- context [OrderManager.place_order api ?s ?d ?q ?p ?t ?g st4] =>
      destruct (place_order_frame api s d q p t g st4) as [_ H5];
      destruct (OrderManager.place_order api s d q p t g st4) as [hedge_pos st5]
  end.
  cbn [fst snd] in H5.
  destruct sell_pos as [sell_pos |]; [| left; reflexivity].
  destruct hedge_pos as [hedge_pos |]; [| left; reflexivity].
  right. exists sell_opt, sell_pos, hedge_pos. cbn [fst snd].
  split; [reflexivity |].
  rewrite H5, H4, P3, <- app_assoc. reflexivity.
Qed.

(** Variant B records an entry as soon as it has found its two short strikes,
    whatever became of the four orders. *)
Lemma enter_B_always_entered (chain : list Opt.t) (b : StrategyB.t)
    (st : AgentState B) :
  let out := StrategyB._enter api chain b st in
  fst out = b \/
  exists sc sp,
    fst out = StrategyB.mk true (Some sc) (Some sp) (StrategyB._scan_counter b).
Proof.
  unfold StrategyB._enter. cbv zeta.
  destruct (filter _ chain) as [| sc ce_rest]; [left; reflexivity |].
  destruct (filter _ chain) as [| sp pe_rest]; [left; reflexivity |].
  right. exists sc, sp.
  destruct (OrderManager.call_quote api _ st) as [q st1].
  match goal with
  | |- context [match ?m with (ltps, st0) => _ end] => destruct m as [[lc lp] st3]
  end.
  reflexivity.
Qed.

End StrategyFacts.

(** ** Strike universe *)







(** ** Runs on a paper broker *)



Lemma roll_budget_bound_witness :
  StrategyB._monitor (Paper.slow_kite true 3) Paper.run_b (Paper.state_rolled 5)
  = (Paper.run_b, Paper.state_rolled 5) /\
  (roll_count
     (snd (Main.strategy_monitor_step (Paper.slow_kite true 3) Paper.lib
             (Paper.run_a, Paper.run_b, Paper.state_rolled 4)))
   <= 5)%Z.
Proof.
  split.
  - destruct (roll_budget_bound (Paper.slow_kite true 3) Paper.lib Paper.run_a
                Paper.run_b (Paper.state_rolled 5))
      as (_ & _ & _ & _ & Hmax & _).
    apply Hmax. vm_compute. discriminate.
  - destruct (roll_budget_bound (Paper.slow_kite true 3) Paper.lib Paper.run_a
                Paper.run_b (Paper.state_rolled 4))
      as (_ & _ & _ & _ & _ & Hrun).
    apply (Hrun (Main.strategy_monitor_step (Paper.slow_kite true 3) Paper.lib
                   (Paper.run_a, Paper.run_b, Paper.state_rolled 4))).
    + eapply RunStep; [apply RunDone | apply StepMonitor].
    + vm_compute. discriminate.
    + vm_compute. discriminate.
Defined.

(** With one roll left and both short strikes breached, variant B rolls the
    call side and then has no budget for the put side. *)
Example shared_roll_budget :
  roll_count (snd (StrategyB._monitor (Paper.slow_kite true 3) Paper.run_b
                     (Paper.state_rolled 4))) = 5%Z /\
  option_map Opt.strike
    (StrategyB.short_ce (fst (StrategyB._monitor (Paper.slow_kite true 3)
                                Paper.run_b (Paper.state_rolled 4))))
  = Some 22250%Z /\
  option_map Opt.strike
    (StrategyB.short_pe (fst (StrategyB._monitor (Paper.slow_kite true 3)
                                Paper.run_b (Paper.state_rolled 4))))
  = Some 21800%Z.
Proof. vm_compute. repeat split. Qed.

(** C3, on the code: with a broker that refuses every order, the entry of
    variant B places no leg and still marks the run as entered, holding both
    short strikes. *)
Theorem enter_B_entered_without_legs :
  let out := StrategyB._enter (Paper.slow_kite false 3) Paper.chain0
               StrategyB.init Paper.state0 in
  positions (snd out) = [] /\
  StrategyB.entered (fst out) = true /\
  StrategyB.short_ce (fst out) = Some Paper.call_22200 /\
  StrategyB.short_pe (fst out) = Some Paper.put_21800.
Proof. vm_compute. repeat split. Qed.

(** The same broker and chain leave variant A idle. *)
Example enter_A_idle_without_legs :
  let out := StrategyA._enter (Paper.slow_kite false 3) Paper.chain0
               StrategyA.init Paper.state0 in
  positions (snd out) = [] /\ fst out = StrategyA.init.
Proof. vm_compute. repeat split. Qed.

(* ------------------------------------------------------------------ *)
(** * Further properties of the pricing engine

    The four sensitivities that [full_greeks] reports are the partial
    derivatives of [price], in the units the code scales them to. *)

Module BSGreeksCalculus.
Import BSGreeks BSGreeksSpec.
Local Open Scope R_scope.

Section Sensitivities.
Variables S K T r sigma : R.
Hypothesis HS : 0 < S.
Hypothesis HK : 0 < K.
Hypothesis HT : 0 < T.
Hypothesis Hsigma : sigma <> 0.

Lemma vol_sqrt_T_nonzero : sigma * sqrt T <> 0.
Proof.
  assert (0 < sqrt T) by (apply sqrt_lt_R0; exact HT).
  intros E. apply Rmult_integral in E. destruct E; lra.
Qed.

(** [d1] moves with the spot at the rate [1 / (S sigma sqrt T)]. *)
Lemma d1_spot_derivative :
  derivable_pt_lim (fun s => d1 s K T r sigma) S (/ (S * (sigma * sqrt T))).
Proof.
  assert (HB := vol_sqrt_T_nonzero).
  apply derivable_pt_lim_ext
    with ((comp ln (id * fct_cte (/ K)) + fct_cte ((r + 0.5 * sigma ^ 2) * T))
          / fct_cte (sigma * sqrt T))%F.
  { intros z. reflexivity. }
  eapply dlim_eq.
  - apply derivable_pt_lim_div.
    + apply derivable_pt_lim_plus; [| apply derivable_pt_lim_const].
      apply derivable_pt_lim_comp.
      * apply derivable_pt_lim_mult;
          [apply derivable_pt_lim_id | apply derivable_pt_lim_const].
      * apply derivable_pt_lim_ln. unfold mult_fct, id, fct_cte.
        apply Rmult_lt_0_compat; [exact HS | apply Rinv_0_lt_compat; exact HK].
    + apply derivable_pt_lim_const.
    + exact HB.
  - unfold mult_fct, plus_fct, comp, id, fct_cte, Rsqr.
    set (B := sigma * sqrt T) in *.
    field. repeat split; lra.
Qed.

Lemma d2_spot_derivative :
  derivable_pt_lim (fun s => d2 s K T r sigma) S (/ (S * (sigma * sqrt T))).
Proof.
  apply derivable_pt_lim_ext
    with ((fun s => d1 s K T r sigma) - fct_cte (sigma * sqrt T))%F.
  { intros z. reflexivity. }
  eapply dlim_eq.
  - apply derivable_pt_lim_minus;
      [apply d1_spot_derivative | apply derivable_pt_lim_const].
  - ring.
Qed.

Lemma call_delta_derivative :
  derivable_pt_lim (fun s => price s K T r sigma "CE") S (norm_cdf (d1 S K T r sigma)).
Proof.
  set (c := K * exp (- r * T)).
  apply derivable_pt_lim_ext
    with (id * comp norm_cdf (fun s => d1 s K T r sigma)
          - fct_cte c * comp norm_cdf (fun s => d2 s K T r sigma))%F.
  { intros z. reflexivity. }
  eapply dlim_eq.
  - apply derivable_pt_lim_minus.
    + apply derivable_pt_lim_mult; [apply derivable_pt_lim_id |].
      apply derivable_pt_lim_comp;
        [apply d1_spot_derivative | apply norm_cdf_derivative].
    + apply derivable_pt_lim_mult; [apply derivable_pt_lim_const |].
      apply derivable_pt_lim_comp;
        [apply d2_spot_derivative | apply norm_cdf_derivative].
  - unfold fct_cte, comp, id.
    assert (Hid := discounted_density S K T r HS HK HT sigma Hsigma). fold c in Hid.
    set (p1 := norm_pdf (d1 S K T r sigma)) in *.
    set (p2 := norm_pdf (d2 S K T r sigma)) in *.
    set (x := / (S * (sigma * sqrt T))).
    replace (c * (p2 * x)) with (c * p2 * x) by ring.
    rewrite Hid. ring.
Qed.


Lemma d1_time_derivative :
  exists l, derivable_pt_lim (fun t => d1 S K t r sigma) T l.
Proof.
  assert (HB := vol_sqrt_T_nonzero).
  eexists.
  apply derivable_pt_lim_ext
    with ((fct_cte (ln (S / K)) + fct_cte (r + 0.5 * sigma ^ 2) * id)
          / (fct_cte sigma * sqrt))%F.
  { intros z. reflexivity. }
  apply derivable_pt_lim_div.
  - apply derivable_pt_lim_plus; [apply derivable_pt_lim_const |].
    apply derivable_pt_lim_mult; [apply derivable_pt_lim_const | apply derivable_pt_lim_id].
  - apply derivable_pt_lim_mult;
      [apply derivable_pt_lim_const | apply derivable_pt_lim_sqrt; exact HT].
  - exact HB.
Qed.

Lemma call_time_derivative :
  derivable_pt_lim (fun t => price S K t r sigma "CE") T
    (S * norm_pdf (d1 S K T r sigma) * sigma / (2 * sqrt T)
     + r * K * exp (- r * T) * norm_cdf (d2 S K T r sigma)).
Proof.
  destruct d1_time_derivative as [l Hl].
  assert (Hq : 0 < sqrt T) by (apply sqrt_lt_R0; exact HT).
  assert (Hl2 : derivable_pt_lim (fun t => d2 S K t r sigma) T
                  (l - sigma * / (2 * sqrt T))).
  { apply derivable_pt_lim_ext
      with ((fun t => d1 S K t r sigma) - fct_cte sigma * sqrt)%F.
    { intros z. reflexivity. }
    eapply dlim_eq.
    - apply derivable_pt_lim_minus; [exact Hl |].
      apply derivable_pt_lim_mult;
        [apply derivable_pt_lim_const | apply derivable_pt_lim_sqrt; exact HT].
    - unfold fct_cte. ring. }
  apply derivable_pt_lim_ext
    with (fct_cte S * comp norm_cdf (fun t => d1 S K t r sigma)
          - (fct_cte K * comp exp (fct_cte (- r) * id))
            * comp norm_cdf (fun t => d2 S K t r sigma))%F.
  { intros z. reflexivity. }
  eapply dlim_eq.
  - apply derivable_pt_lim_minus.
    + apply derivable_pt_lim_mult; [apply derivable_pt_lim_const |].
      apply derivable_pt_lim_comp; [exact Hl | apply norm_cdf_derivative].
    + apply derivable_pt_lim_mult.
      * apply derivable_pt_lim_mult; [apply derivable_pt_lim_const |].
        apply derivable_pt_lim_comp.
        -- apply derivable_pt_lim_mult;
             [apply derivable_pt_lim_const | apply derivable_pt_lim_id].
        -- apply derivable_pt_lim_exp.
      * apply derivable_pt_lim_comp; [exact Hl2 | apply norm_cdf_derivative].
  - unfold fct_cte, comp, id, mult_fct.
    assert (Hid := discounted_density S K T r HS HK HT sigma Hsigma).
    set (p1 := norm_pdf (d1 S K T r sigma)) in *.
    set (p2 := norm_pdf (d2 S K T r sigma)) in *.
    set (N1 := norm_cdf (d1 S K T r sigma)).
    set (N2 := norm_cdf (d2 S K T r sigma)).
    set (e := exp (- r * T)) in *.
    set (q := sqrt T) in *.
    transitivity (S * p1 * l + r * K * e * N2
                  - (K * e * p2) * l + (K * e * p2) * sigma / (2 * q)).
    + field. lra.
    + rewrite Hid. field. lra.
Qed.

End Sensitivities.

(** Vega: 100 times [vega] is the rate at which the fair value grows with the
    volatility. *)
Theorem vega_is_volatility_sensitivity (S K T r sigma : R) (opt_type : string) :
  0 < S -> 0 < K -> 0 < T -> sigma <> 0 ->
  derivable_pt_lim (fun s => price S K T r s opt_type) sigma
    (100 * vega S K T r sigma).
Proof.
  intros HS HK HT Hs.
  eapply dlim_eq; [apply (price_derivative S K T r HS HK HT opt_type sigma Hs) | ring].
Qed.


(** Delta is the rate at which the fair value moves with the spot. *)
Theorem delta_is_spot_sensitivity (S K T r sigma : R) (opt_type : string) :
  0 < S -> 0 < K -> 0 < T -> sigma <> 0 ->
  derivable_pt_lim (fun s => price s K T r sigma opt_type) S
    (delta S K T r sigma opt_type).
Proof.
  intros HS HK HT Hs. unfold delta.
  destruct (String.eqb opt_type "CE") eqn:E.
  - apply derivable_pt_lim_ext with (fun s => price s K T r sigma "CE").
    { intros z. unfold price. rewrite E. reflexivity. }
    apply call_delta_derivative; assumption.
  - apply derivable_pt_lim_ext
      with ((fun s => price s K T r sigma "CE") - id
            + fct_cte (K * exp (- r * T)))%F.
    { intros z. unfold plus_fct, minus_fct, fct_cte, id.
      transitivity (price z K T r sigma "PE").
      - rewrite put_from_call. reflexivity.
      - unfold price. rewrite E. reflexivity. }
    eapply dlim_eq.
    + apply derivable_pt_lim_plus; [| apply derivable_pt_lim_const].
      apply derivable_pt_lim_minus;
        [apply call_delta_derivative; assumption | apply derivable_pt_lim_id].
    + ring.
Qed.

(** Gamma is the rate at which delta moves with the spot, for both kinds. *)
Theorem gamma_is_delta_sensitivity (S K T r sigma : R) (opt_type : string) :
  0 < S -> 0 < K -> 0 < T -> sigma <> 0 ->
  derivable_pt_lim (fun s => delta s K T r sigma opt_type) S
    (gamma S K T r sigma).
Proof.
  intros HS HK HT Hs.
  assert (HB := vol_sqrt_T_nonzero T sigma HT Hs).
  assert (D : derivable_pt_lim (comp norm_cdf (fun s => d1 s K T r sigma)) S
                (gamma S K T r sigma)).
  { eapply dlim_eq.
    - apply derivable_pt_lim_comp;
        [apply d1_spot_derivative; assumption | apply norm_cdf_derivative].
    - unfold gamma. field. split; [| lra].
      intros Hq. apply HB. rewrite Hq. ring. }
  destruct (String.eqb opt_type "CE") eqn:E.
  - apply derivable_pt_lim_ext with (comp norm_cdf (fun s => d1 s K T r sigma)).
    { intros z. unfold delta, comp. rewrite E. reflexivity. }
    exact D.
  - apply derivable_pt_lim_ext
      with (comp norm_cdf (fun s => d1 s K T r sigma) - fct_cte 1)%F.
    { intros z. unfold delta, comp, minus_fct, fct_cte. rewrite E. reflexivity. }
    eapply dlim_eq.
    + apply derivable_pt_lim_minus; [exact D | apply derivable_pt_lim_const].
    + ring.
Qed.

(** Theta is the fair value lost per calendar day: minus the rate at which the
    fair value grows with the time to expiry, over 365. *)
Theorem theta_is_daily_time_decay (S K T r sigma : R) (opt_type : string) :
  0 < S -> 0 < K -> 0 < T -> sigma <> 0 ->
  derivable_pt_lim (fun t => price S K t r sigma opt_type) T
    (- (365 * theta S K T r sigma opt_type)).
Proof.
  intros HS HK HT Hs.
  assert (Hq : 0 < sqrt T) by (apply sqrt_lt_R0; exact HT).
  assert (D := call_time_derivative S K T r sigma HS HK HT Hs).
  unfold theta.
  destruct (String.eqb opt_type "CE") eqn:E.
  - apply derivable_pt_lim_ext with (fun t => price S K t r sigma "CE").
    { intros z. unfold price. rewrite E. reflexivity. }
    eapply dlim_eq; [exact D |]. field. lra.
  - apply derivable_pt_lim_ext
      with ((fun t => price S K t r sigma "CE") - fct_cte S
            + fct_cte K * comp exp (fct_cte (- r) * id))%F.
    { intros z. unfold plus_fct, minus_fct, mult_fct, comp, fct_cte, id.
      transitivity (price S K z r sigma "PE").
      - rewrite put_from_call. reflexivity.
      - unfold price. rewrite E. reflexivity. }
    eapply dlim_eq.
    + apply derivable_pt_lim_plus.
      * apply derivable_pt_lim_minus; [exact D | apply derivable_pt_lim_const].
      * apply derivable_pt_lim_mult; [apply derivable_pt_lim_const |].
        apply derivable_pt_lim_comp.
        -- apply derivable_pt_lim_mult;
             [apply derivable_pt_lim_const | apply derivable_pt_lim_id].
        -- apply derivable_pt_lim_exp.
    + unfold fct_cte, comp, id, mult_fct. rewrite norm_cdf_opp. field. lra.
Qed.

Lemma vega_is_volatility_sensitivity_witness :
  derivable_pt_lim (fun s => price 100 100 1 0.065 s "PE") 0.20
    (100 * vega 100 100 1 0.065 0.20).
Proof. apply vega_is_volatility_sensitivity; lra. Defined.


Lemma delta_is_spot_sensitivity_witness :
  derivable_pt_lim (fun s => price s 100 1 0.065 0.20 "PE") 100
    (delta 100 100 1 0.065 0.20 "PE").
Proof. apply delta_is_spot_sensitivity; lra. Defined.

Lemma gamma_is_delta_sensitivity_witness :
  derivable_pt_lim (fun s => delta s 100 1 0.065 0.20 "PE") 100
    (gamma 100 100 1 0.065 0.20).
Proof. apply gamma_is_delta_sensitivity; lra. Defined.

Lemma theta_is_daily_time_decay_witness :
  derivable_pt_lim (fun t => price 100 100 t 0.065 0.20 "PE") 1
    (- (365 * theta 100 100 1 0.065 0.20 "PE")).
Proof. apply theta_is_daily_time_decay; lra. Defined.

End BSGreeksCalculus.
